(** * MFarm-UI: the income and supplier forms and the product catalog

    A shallow embedding of the React components [IncomeForm],
    [SupplierForm], [ViewProducts], [IncomeDetails] and [OutcomeDetails].
    Component state (the [useState] cells and the [useFormik] bag) is a
    record; an event handler or an
    effect is a function from state to state; an [await] on the REST
    collaborator is a parameter holding how that promise settled.
    JavaScript numbers are IEEE-754 binary64 values, here Rocq's
    primitive floats. *)

From Stdlib Require Import ZArith QArith Qround List String Bool Lia Floats.
Import ListNotations.

Set Warnings "-inexact-float".
Close Scope Q_scope.
Local Open Scope string_scope.

(** ** JavaScript numbers *)

Module JS.

Definition number := float.

(** [ToNumber(undefined)] is [NaN]; a field that is present converts to
    itself. *)
Definition ToNumber (v : option number) : number :=
  match v with
  | Some x => x
  | None => nan
  end.

(** [ToBoolean] on a number: [+0], [-0] and [NaN] are falsy. *)
Definition ToBoolean (x : number) : bool :=
  negb (is_zero x || is_nan x).

(** [a || b] on numbers. *)
Definition or (a b : number) : number :=
  if ToBoolean a then a else b.

(** What [Number.prototype.toFixed] returns, as abstract syntax of the
    string: [StrFixed neg n f] is the numeral whose digits are those of
    [n] with the point before the last [f], after a minus sign when
    [neg]. *)
Inductive NumberString :=
| StrNaN
| StrInfinity (negative : bool)
| StrFixed (negative : bool) (n : Z) (fractionDigits : positive)
| StrToString (x : number).

(** The integer [n] for which [n - m * 2^e] is closest to zero, the
    larger one when there are two ([m] is not negative). *)
Definition nearest_integer (m e : Z) : Z :=
  match e with
  | Zneg p => (2 * m + Z.pow_pos 2 p) / (2 * Z.pow_pos 2 p)
  | _ => m * 2 ^ e
  end.

(** [x.toFixed(fractionDigits)]: a number that is not finite, or whose
    magnitude is [1e21] or more, prints as [ToString] prints it;
    otherwise the sign, then the integer [n] with [n / 10^fractionDigits]
    nearest to the magnitude. *)
Definition toFixed (x : number) (fractionDigits : positive) : NumberString :=
  match Prim2SF x with
  | S754_nan => StrNaN
  | S754_infinity s => StrInfinity s
  | S754_zero _ => StrFixed false 0 fractionDigits
  | S754_finite s m e =>
      if (1e21 <=? abs x)%float then StrToString x
      else StrFixed s (nearest_integer (Z.pow_pos 10 fractionDigits * Zpos m) e)
                    fractionDigits
  end.

(** The binary64 value nearest to [n / 10^f], ties to even: the value of
    a decimal numeral. *)
Definition of_decimal (n : Z) (f : positive) : number :=
  match n with
  | Zpos p =>
      SF2Prim (SF64div (S754_finite false p 0)
                       (S754_finite false (Pos.pow 10 f) 0))
  | _ => 0%float
  end.

(** [parseFloat] on such a string. What [ToString] prints reads back as
    the number printed. *)
Definition parseFloat (s : NumberString) : number :=
  match s with
  | StrNaN => nan
  | StrInfinity negative => if negative then neg_infinity else infinity
  | StrFixed negative n f =>
      if negative then (- of_decimal n f)%float else of_decimal n f
  | StrToString x => x
  end.

(** Rounding to decimal places, said without the string in between.
    [nearest_to n m e]: the integer [n] is nearest to [m * 2^e], and is
    the larger one when two integers are equally near:
    [-1/2 < n - m * 2^e <= 1/2]. *)
Definition nearest_to (n m e : Z) : Prop :=
  match e with
  | Zneg p =>
      (- Z.pow_pos 2 p < 2 * (n * Z.pow_pos 2 p - m) <= Z.pow_pos 2 p)%Z
  | _ => n = (m * 2 ^ e)%Z
  end.

(** [rounded f x y]: [y] is [x] rounded to [f] decimal places. A number
    that is not finite, or is so large that it is an integer, is its own
    rounding; a zero rounds to [+0]; another one rounds to the binary64
    value of [n / 10^f], for the integer [n] nearest to [|x| * 10^f] (the
    larger one of two), with the sign of [x]. *)
Definition rounded (f : positive) (x y : number) : Prop :=
  match Prim2SF x with
  | S754_nan | S754_infinity _ => y = x
  | S754_zero _ => y = 0%float
  | S754_finite s m e =>
      if (1e21 <=? abs x)%float then y = x
      else exists n : Z,
          nearest_to n (Z.pow_pos 10 f * Zpos m) e
          /\ y = if s then (- of_decimal n f)%float else of_decimal n f
  end.

(** [a] and [b] are the same number but for the sign of a zero: what
    [a === b] says of two numbers, and [NaN] taken as itself. *)
Definition same_number (a b : number) : Prop :=
  a = b \/ (is_zero a = true /\ is_zero b = true).

(** Values of type [any], as far as the components look at them. *)
Inductive value :=
| undefined
| null
| boolean (b : bool)
| numeric (x : number)
| text (s : string).

Definition truthy (v : value) : bool :=
  match v with
  | undefined | null => false
  | boolean b => b
  | numeric x => ToBoolean x
  | text s => negb (s =? "")
  end.

(** [v === true] *)
Definition is_true (v : value) : bool :=
  match v with
  | boolean true => true
  | _ => false
  end.

End JS.

(** How an awaited request to the REST collaborator settles: fulfilled with
    the payload found under [response.data.data], or rejected. *)
Module Api.
Inductive result (A : Type) :=
| Fulfilled (data : A)
| Rejected (error : string).
Arguments Fulfilled {A} data.
Arguments Rejected {A} error.
End Api.

(** ** Entity records *)

Module Product.
(** A line item of an income. A field that is [undefined] at run time is
    [None]. *)
Record t := {
  id : string;
  quantity : option JS.number;
  price : option JS.number
}.
End Product.

Module Origin.
Record t := {
  originType : string;
  id : string
}.

Definition set_id (v : string) (o : t) : t :=
  {| originType := originType o; id := v |}.
End Origin.

Module IncomeData.
Record t := {
  id : string;
  warehouse : string;
  date : string;
  products : list Product.t;
  totalPrice : JS.number;
  incomeType : string;
  origin : Origin.t;
  documents : list string;
  status : bool
}.

Definition set_products (v : list Product.t) (d : t) : t :=
  {| id := id d; warehouse := warehouse d; date := date d; products := v;
     totalPrice := totalPrice d; incomeType := incomeType d;
     origin := origin d; documents := documents d; status := status d |}.

Definition set_totalPrice (v : JS.number) (d : t) : t :=
  {| id := id d; warehouse := warehouse d; date := date d;
     products := products d; totalPrice := v; incomeType := incomeType d;
     origin := origin d; documents := documents d; status := status d |}.

Definition set_origin_id (v : string) (d : t) : t :=
  {| id := id d; warehouse := warehouse d; date := date d;
     products := products d; totalPrice := totalPrice d;
     incomeType := incomeType d; origin := Origin.set_id v (origin d);
     documents := documents d; status := status d |}.
End IncomeData.

Module SupplierData.
Record t := {
  id : string;
  name : string;
  address : string;
  phone_number : string;
  email : string;
  supplier_type : string;
  status : bool;
  rnc : string
}.
End SupplierData.

Module ProductData.
(** Modelled from the spec: the declaration of [ProductData] (in
    ProductForm) is not among the sources; these are the fields the
    catalog reads. A row of the table is typed [any], so [status] is any
    value. *)
Record t := {
  id : string;
  name : string;
  image : option string;
  status : JS.value
}.
End ProductData.

(** ** The form state [useFormik] holds *)

Module Formik.
Record t (Values : Type) := {
  values : Values;
  isSubmitting : bool
}.
Arguments values {Values} _.
Arguments isSubmitting {Values} _.

Definition setSubmitting {V} (b : bool) (f : t V) : t V :=
  {| values := values f; isSubmitting := b |}.

Definition setValues {V} (v : V) (f : t V) : t V :=
  {| values := v; isSubmitting := isSubmitting f |}.

(** What [setFieldValue] leaves in a field that holds the number [old]
    when it is given [new]. Formik's [setIn] hands back the values it was
    given when the field already holds a value [===] the new one, and
    writes the new one otherwise; on numbers [===] does not tell one zero
    from the other, and [NaN] is not [===] itself. *)
Definition setIn_number (old new : JS.number) : JS.number :=
  if (old =? new)%float then old else new.
End Formik.

Module AlertConfig.
Record t := {
  visible : bool;
  color : string;
  message : string
}.

(** [{ ...alertConfig, visible: false }] *)
Definition hidden (a : t) : t :=
  {| visible := false; color := color a; message := message a |}.
End AlertConfig.

(** ** SupplierForm *)

Module SupplierForm.

Record State := {
  formik : Formik.t SupplierData.t;
  cancelModalOpen : bool;
  showErrorAlert : bool;
  (** delays, in milliseconds, of the pending
      [setTimeout(() => setShowErrorAlert(false), ms)] *)
  timeouts : list nat;
  (** what [console.error] has printed *)
  console : list string
}.

Definition set_formik v (st : State) : State :=
  {| formik := v; cancelModalOpen := cancelModalOpen st;
     showErrorAlert := showErrorAlert st; timeouts := timeouts st;
     console := console st |}.

Definition setCancelModalOpen v (st : State) : State :=
  {| formik := formik st; cancelModalOpen := v;
     showErrorAlert := showErrorAlert st; timeouts := timeouts st;
     console := console st |}.

Definition setShowErrorAlert v (st : State) : State :=
  {| formik := formik st; cancelModalOpen := cancelModalOpen st;
     showErrorAlert := v; timeouts := timeouts st; console := console st |}.

Definition setTimeout (ms : nat) (st : State) : State :=
  {| formik := formik st; cancelModalOpen := cancelModalOpen st;
     showErrorAlert := showErrorAlert st; timeouts := timeouts st ++ [ms];
     console := console st |}.

Definition console_error (msg : string) (st : State) : State :=
  {| formik := formik st; cancelModalOpen := cancelModalOpen st;
     showErrorAlert := showErrorAlert st; timeouts := timeouts st;
     console := console st ++ [msg] |}.

Definition setSubmitting (b : bool) (st : State) : State :=
  set_formik (Formik.setSubmitting b (formik st)) st.

Definition initialValues (initialData : option SupplierData.t) : SupplierData.t :=
  match initialData with
  | Some d => d
  | None =>
      {| SupplierData.id := ""; SupplierData.name := "";
         SupplierData.address := ""; SupplierData.phone_number := "";
         SupplierData.email := ""; SupplierData.supplier_type := "";
         SupplierData.status := true; SupplierData.rnc := "" |}
  end.

Definition init (initialData : option SupplierData.t) : State :=
  {| formik := {| Formik.values := initialValues initialData;
                  Formik.isSubmitting := false |};
     cancelModalOpen := false; showErrorAlert := false;
     timeouts := []; console := [] |}.

(** [formik.onSubmit], up to its [await]. *)
Definition onSubmit_begin (st : State) : State :=
  setSubmitting true st.

(** [formik.onSubmit], from the [await] on: [r] is how the promise of
    [props.onSubmit(values)] settled. *)
Definition onSubmit_settled (r : Api.result unit) (st : State) : State :=
  let st :=
    match r with
    | Api.Fulfilled _ => st
    | Api.Rejected _ =>
        setShowErrorAlert true
          (console_error "Error al enviar el formulario:" st)
    end in
  setTimeout 5000 (setSubmitting false st).

(** The [k]-th pending timeout fires: its callback hides the alert. *)
Definition timeout_fires (k : nat) (st : State) : State :=
  match nth_error (timeouts st) k with
  | None => st
  | Some _ =>
      setShowErrorAlert false
        {| formik := formik st; cancelModalOpen := cancelModalOpen st;
           showErrorAlert := showErrorAlert st;
           timeouts := firstn k (timeouts st) ++ skipn (S k) (timeouts st);
           console := console st |}
  end.

(** [disabled] of the submit button, and of the cancel button. *)
Definition submit_disabled (st : State) : bool :=
  Formik.isSubmitting (formik st).

Inductive Event :=
| Edit (change : SupplierData.t -> SupplierData.t)
| SubmitClick (valid : bool)
| SubmitSettled (r : Api.result unit)
| CancelClick
| KeepEditing
| TimeoutFires (k : nat).

(** A run of the form: its state, and how many calls of [props.onSubmit]
    have not settled. *)
Record Run := {
  state : State;
  inFlight : nat
}.

(** A click on a disabled button calls no handler; [formik.handleSubmit]
    calls [onSubmit] only when the validation schema accepts the values
    ([valid]); a promise settles only while one is pending. *)
Definition step (e : Event) (r : Run) : Run :=
  let st := state r in
  match e with
  | Edit change =>
      {| state := set_formik
                    (Formik.setValues (change (Formik.values (formik st)))
                       (formik st)) st;
         inFlight := inFlight r |}
  | SubmitClick valid =>
      if submit_disabled st then r
      else if valid
           then {| state := onSubmit_begin st; inFlight := S (inFlight r) |}
           else r
  | SubmitSettled res =>
      match inFlight r with
      | O => r
      | S n => {| state := onSubmit_settled res st; inFlight := n |}
      end
  | CancelClick =>
      if submit_disabled st then r
      else {| state := setCancelModalOpen true st; inFlight := inFlight r |}
  | KeepEditing =>
      {| state := setCancelModalOpen false st; inFlight := inFlight r |}
  | TimeoutFires k =>
      {| state := timeout_fires k st; inFlight := inFlight r |}
  end.

Definition run (events : list Event) (r : Run) : Run :=
  fold_left (fun r e => step e r) events r.

Definition start (initialData : option SupplierData.t) : Run :=
  {| state := init initialData; inFlight := 0 |}.

End SupplierForm.

(** ** IncomeForm *)

Module IncomeForm.

(** *** The validation rule of the [id] field *)

Definition required_message := "Por favor, ingrese el ID".
Definition unique_id_message :=
  "Este identificador ya existe, por favor ingrese otro".

(** The [unique_id] test: [get] is how the request
    [incomes/income_id_exists/<value>] settles. *)
Definition unique_id (get : string -> Api.result JS.value)
    (value : option string) : bool :=
  match value with
  | None => false
  | Some v =>
      if v =? "" then false
      else
        match get v with
        | Api.Fulfilled data => negb (JS.truthy data)
        | Api.Rejected _ => false
        end
  end.

(** [Yup.string().required(..)]: the value is there and is not empty. *)
Definition required (value : option string) : bool :=
  match value with
  | None => false
  | Some v => negb (v =? "")
  end.

(** The messages of the tests of [id] that fail, in the order of the
    schema. *)
Definition id_errors (get : string -> Api.result JS.value)
    (value : option string) : list string :=
  (if required value then [] else [required_message])
  ++ (if unique_id get value then [] else [unique_id_message]).

(** [formik.errors.id]: the first of them. *)
Definition id_error (get : string -> Api.result JS.value)
    (value : option string) : option string :=
  hd_error (id_errors get value).

(** Whether the schema accepts the values: the [id] field has no error
    and the rules of the other fields ([others]) pass. [formik.handleSubmit]
    calls [onSubmit] only then. *)
Definition schema_valid (get : string -> Api.result JS.value)
    (value : option string) (others : bool) : bool :=
  match id_error get value with
  | None => others
  | Some _ => false
  end.

(** *** State *)

Record Modals := {
  createSupplier : bool;
  createProduct : bool
}.

Inductive ModalName := CreateSupplier | CreateProduct.

(** A pending [setTimeout(() => setAlertConfig(alert), delay)]. *)
Record Timeout := {
  delay : nat;
  alert : AlertConfig.t
}.

Record State := {
  cancelModalOpen : bool;
  suppliers : list SupplierData.t;
  selectedSupplier : option SupplierData.t;
  modals : Modals;
  products : list ProductData.t;
  alertConfig : AlertConfig.t;
  formik : Formik.t IncomeData.t;
  timeouts : list Timeout;
  console : list string
}.

Definition setCancelModalOpen v (st : State) : State :=
  {| cancelModalOpen := v; suppliers := suppliers st;
     selectedSupplier := selectedSupplier st; modals := modals st;
     products := products st; alertConfig := alertConfig st;
     formik := formik st; timeouts := timeouts st; console := console st |}.

Definition setSuppliers v (st : State) : State :=
  {| cancelModalOpen := cancelModalOpen st; suppliers := v;
     selectedSupplier := selectedSupplier st; modals := modals st;
     products := products st; alertConfig := alertConfig st;
     formik := formik st; timeouts := timeouts st; console := console st |}.

Definition setSelectedSupplier v (st : State) : State :=
  {| cancelModalOpen := cancelModalOpen st; suppliers := suppliers st;
     selectedSupplier := v; modals := modals st;
     products := products st; alertConfig := alertConfig st;
     formik := formik st; timeouts := timeouts st; console := console st |}.

Definition setModals v (st : State) : State :=
  {| cancelModalOpen := cancelModalOpen st; suppliers := suppliers st;
     selectedSupplier := selectedSupplier st; modals := v;
     products := products st; alertConfig := alertConfig st;
     formik := formik st; timeouts := timeouts st; console := console st |}.

Definition setProducts v (st : State) : State :=
  {| cancelModalOpen := cancelModalOpen st; suppliers := suppliers st;
     selectedSupplier := selectedSupplier st; modals := modals st;
     products := v; alertConfig := alertConfig st;
     formik := formik st; timeouts := timeouts st; console := console st |}.

Definition setAlertConfig v (st : State) : State :=
  {| cancelModalOpen := cancelModalOpen st; suppliers := suppliers st;
     selectedSupplier := selectedSupplier st; modals := modals st;
     products := products st; alertConfig := v;
     formik := formik st; timeouts := timeouts st; console := console st |}.

Definition set_formik v (st : State) : State :=
  {| cancelModalOpen := cancelModalOpen st; suppliers := suppliers st;
     selectedSupplier := selectedSupplier st; modals := modals st;
     products := products st; alertConfig := alertConfig st;
     formik := v; timeouts := timeouts st; console := console st |}.

Definition set_timeouts v (st : State) : State :=
  {| cancelModalOpen := cancelModalOpen st; suppliers := suppliers st;
     selectedSupplier := selectedSupplier st; modals := modals st;
     products := products st; alertConfig := alertConfig st;
     formik := formik st; timeouts := v; console := console st |}.

Definition console_error (msg : string) (st : State) : State :=
  {| cancelModalOpen := cancelModalOpen st; suppliers := suppliers st;
     selectedSupplier := selectedSupplier st; modals := modals st;
     products := products st; alertConfig := alertConfig st;
     formik := formik st; timeouts := timeouts st;
     console := console st ++ [msg] |}.

Definition setTimeout (callback : AlertConfig.t) (ms : nat) (st : State) : State :=
  set_timeouts (timeouts st ++ [{| delay := ms; alert := callback |}]) st.

Definition values (st : State) : IncomeData.t :=
  Formik.values (formik st).

Definition setValues (v : IncomeData.t) (st : State) : State :=
  set_formik (Formik.setValues v (formik st)) st.

Definition setSubmitting (b : bool) (st : State) : State :=
  set_formik (Formik.setSubmitting b (formik st)) st.

Definition initialValues (initialData : option IncomeData.t) : IncomeData.t :=
  match initialData with
  | Some d => d
  | None =>
      {| IncomeData.id := ""; IncomeData.warehouse := "AG001";
         IncomeData.date := ""; IncomeData.products := [];
         IncomeData.totalPrice := 0%float; IncomeData.incomeType := "";
         IncomeData.origin :=
           {| Origin.originType := "supplier"; Origin.id := "" |};
         IncomeData.documents := []; IncomeData.status := true |}
  end.

Definition init (initialData : option IncomeData.t) : State :=
  {| cancelModalOpen := false; suppliers := []; selectedSupplier := None;
     modals := {| createSupplier := false; createProduct := false |};
     products := [];
     alertConfig := {| AlertConfig.visible := false; AlertConfig.color := "";
                       AlertConfig.message := "" |};
     formik := {| Formik.values := initialValues initialData;
                  Formik.isSubmitting := false |};
     timeouts := []; console := [] |}.

(** *** Handlers

    A handler is a closure of some render: it reads the state of that
    render ([render], where it reads a variable) and updates the current
    state. *)

(** [state ?? !prev[modalName]] *)
Definition toggleModal (modalName : ModalName) (state : option bool)
    (st : State) : State :=
  let prev := modals st in
  match modalName with
  | CreateSupplier =>
      setModals {| createSupplier :=
                     match state with
                     | Some b => b
                     | None => negb (createSupplier prev)
                     end;
                   createProduct := createProduct prev |} st
  | CreateProduct =>
      setModals {| createSupplier := createSupplier prev;
                   createProduct :=
                     match state with
                     | Some b => b
                     | None => negb (createProduct prev)
                     end |} st
  end.

Definition handleError (render : State) (message : string) (st : State)
    : State :=
  setTimeout (AlertConfig.hidden (alertConfig render)) 5000
    (setAlertConfig {| AlertConfig.visible := true;
                       AlertConfig.color := "danger";
                       AlertConfig.message := message |}
       (console_error message st)).

Definition fetchSuppliers (render : State)
    (response : Api.result (list SupplierData.t)) (st : State) : State :=
  match response with
  | Api.Fulfilled data => setSuppliers data st
  | Api.Rejected _ =>
      handleError render
        "Ha ocurrido un error al obtener a los proveedores, intentelo más tarde"
        st
  end.

Definition fetchProducts (render : State)
    (response : Api.result (list ProductData.t)) (st : State) : State :=
  match response with
  | Api.Fulfilled data => setProducts data st
  | Api.Rejected _ =>
      handleError render
        "Ha ocurrido un error al obtener los productos, intentelo más tarde"
        st
  end.

(** [formik.onSubmit], up to its [await]. *)
Definition onSubmit_begin (st : State) : State :=
  setSubmitting true st.

(** [formik.onSubmit], from the [await] on: [r] is how the promise of
    [props.onSubmit(values)] settled. *)
Definition onSubmit_settled (r : Api.result unit) (st : State) : State :=
  let st :=
    match r with
    | Api.Fulfilled _ => st
    | Api.Rejected _ => console_error "Error al enviar el formulario:" st
    end in
  setSubmitting false st.

(** [suppliers.find((s) => s.id === id) || null] *)
Definition find_supplier (suppliers : list SupplierData.t) (id : string)
    : option SupplierData.t :=
  find (fun s => SupplierData.id s =? id) suppliers.

Definition handleSupplierChange (render : State) (supplierId : string)
    (st : State) : State :=
  let supplier := find_supplier (suppliers render) supplierId in
  setValues (IncomeData.set_origin_id supplierId (values st))
    (setSelectedSupplier supplier st).

(** [create] is how the request [supplier/create_supplier] settles,
    [refetch] how the request of [fetchSuppliers] does. *)
Definition handleCreateSupplier (render : State)
    (create : Api.result SupplierData.t)
    (refetch : Api.result (list SupplierData.t)) (st : State) : State :=
  match create with
  | Api.Fulfilled newSupplier =>
      let st := fetchSuppliers render refetch st in
      let st := setSelectedSupplier (Some newSupplier) st in
      let st := setValues (IncomeData.set_origin_id
                             (SupplierData.id newSupplier) (values st)) st in
      let st := toggleModal CreateSupplier None st in
      let st := setAlertConfig
                  {| AlertConfig.visible := true;
                     AlertConfig.color := "success";
                     AlertConfig.message := "Proveedor creado con éxito" |}
                  st in
      setTimeout (AlertConfig.hidden (alertConfig render)) 5000 st
  | Api.Rejected _ =>
      handleError render
        "Ha ocurrido un error al crear al proveedor, intentelo más tarde"
        (toggleModal CreateSupplier None st)
  end.

Definition handleCreateProduct (render : State)
    (create : Api.result unit)
    (refetch : Api.result (list ProductData.t)) (st : State) : State :=
  match create with
  | Api.Fulfilled _ =>
      let st := fetchProducts render refetch st in
      let st := toggleModal CreateProduct None st in
      let st := setAlertConfig
                  {| AlertConfig.visible := true;
                     AlertConfig.color := "success";
                     AlertConfig.message := "Producto creado con éxito" |}
                  st in
      setTimeout (AlertConfig.hidden (alertConfig render)) 5000 st
  | Api.Rejected _ =>
      handleError render
        "Ha ocurrido un error al crear el producto, intentelo más tarde"
        (toggleModal CreateProduct None st)
  end.

Definition handleProductSelect (selectedProducts : list Product.t)
    (st : State) : State :=
  setValues (IncomeData.set_products selectedProducts (values st)) st.

(** *** Effects *)

(** The effect on [formik.values.origin.id] and [suppliers]. *)
Definition selectedSupplier_effect (st : State) : State :=
  let supplier :=
    find_supplier (suppliers st) (Origin.id (IncomeData.origin (values st))) in
  setSelectedSupplier supplier st.

(** The body of the [reduce] callback. *)
Definition add_product (sum : JS.number) (product : Product.t) : JS.number :=
  (sum + JS.or (JS.ToNumber (Product.quantity product)
                * JS.ToNumber (Product.price product)) 0)%float.

Definition subtotal (products : list Product.t) : JS.number :=
  fold_left add_product products 0%float.

(** The value the effect passes to [setFieldValue("totalPrice", ..)]. *)
Definition totalPrice_of (products : list Product.t) : JS.number :=
  let totalWithTax := (subtotal products * 1.18)%float in
  JS.parseFloat (JS.toFixed totalWithTax 2).

(** The effect on [formik.values.products]:
    [formik.setFieldValue("totalPrice", ..)] of that value. *)
Definition totalPrice_effect (st : State) : State :=
  setValues
    (IncomeData.set_totalPrice
       (Formik.setIn_number (IncomeData.totalPrice (values st))
          (totalPrice_of (IncomeData.products (values st))))
       (values st)) st.

(** *** What is rendered *)

(** The [value] of the five disabled inputs under the supplier select;
    [selectedSupplier?.address] and the like, [None] for [undefined]. *)
Record SupplierFields := {
  supplierAddress : option string;
  supplierEmail : option string;
  supplierRNC : option string;
  supplierPhoneNumber : option string;
  supplierType : option string
}.

Definition supplier_fields (st : State) : SupplierFields :=
  {| supplierAddress := option_map SupplierData.address (selectedSupplier st);
     supplierEmail := option_map SupplierData.email (selectedSupplier st);
     supplierRNC := option_map SupplierData.rnc (selectedSupplier st);
     supplierPhoneNumber :=
       option_map SupplierData.phone_number (selectedSupplier st);
     supplierType :=
       option_map SupplierData.supplier_type (selectedSupplier st) |}.

(** The text of the five inputs on screen. *)
Record SupplierTexts := {
  textAddress : string;
  textEmail : string;
  textRNC : string;
  textPhoneNumber : string;
  textType : string
}.

(** The five inputs when the form is mounted, before their first
    [value]. *)
Definition blank : SupplierTexts :=
  {| textAddress := ""; textEmail := ""; textRNC := "";
     textPhoneNumber := ""; textType := "" |}.

(** What React DOM leaves in an [input] whose text is [text] when a
    render gives it [value]: a string is written into the input; with
    [undefined] the input is not written to and keeps its text. *)
Definition input_text (value : option string) (text : string) : string :=
  match value with
  | Some v => v
  | None => text
  end.

(** The five inputs after the render of [st] is committed over
    [screen]. *)
Definition commit (st : State) (screen : SupplierTexts) : SupplierTexts :=
  let fields := supplier_fields st in
  {| textAddress := input_text (supplierAddress fields) (textAddress screen);
     textEmail := input_text (supplierEmail fields) (textEmail screen);
     textRNC := input_text (supplierRNC fields) (textRNC screen);
     textPhoneNumber :=
       input_text (supplierPhoneNumber fields) (textPhoneNumber screen);
     textType := input_text (supplierType fields) (textType screen) |}.

(** The five inputs showing the supplier [s]. *)
Definition texts_of (s : SupplierData.t) : SupplierTexts :=
  {| textAddress := SupplierData.address s; textEmail := SupplierData.email s;
     textRNC := SupplierData.rnc s;
     textPhoneNumber := SupplierData.phone_number s;
     textType := SupplierData.supplier_type s |}.

(** [disabled] of the submit button, and of the cancel button. *)
Definition submit_disabled (st : State) : bool :=
  Formik.isSubmitting (formik st).

(** The [k]-th pending timeout fires. *)
Definition timeout_fires (k : nat) (st : State) : State :=
  match nth_error (timeouts st) k with
  | None => st
  | Some t =>
      setAlertConfig (alert t)
        (set_timeouts (firstn k (timeouts st) ++ skipn (S k) (timeouts st)) st)
  end.

(** *** Runs *)

Inductive Event :=
| SubmitClick (valid : bool)
| SubmitSettled (r : Api.result unit)
| SuppliersFetched (render : State)
                   (response : Api.result (list SupplierData.t))
| ProductsFetched (render : State)
                  (response : Api.result (list ProductData.t))
| SupplierChange (supplierId : string)
| SupplierCreated (render : State) (create : Api.result SupplierData.t)
                  (refetch : Api.result (list SupplierData.t))
| ProductCreated (render : State) (create : Api.result unit)
                 (refetch : Api.result (list ProductData.t))
| ProductSelect (selectedProducts : list Product.t)
| ToggleModal (modalName : ModalName) (state : option bool)
| CancelClick
| KeepEditing
| SelectedSupplierEffect
| TotalPriceEffect
| TimeoutFires (k : nat).

(** The state transformer of an event other than the two of a
    submission. A request settles in the handler that awaited it, a
    closure of the render it was called from ([render], any earlier
    state); a change of the select is handled by the current render. *)
Definition handle (e : Event) (st : State) : State :=
  match e with
  | SubmitClick _ | SubmitSettled _ => st
  | SuppliersFetched render response => fetchSuppliers render response st
  | ProductsFetched render response => fetchProducts render response st
  | SupplierChange supplierId => handleSupplierChange st supplierId st
  | SupplierCreated render create refetch =>
      handleCreateSupplier render create refetch st
  | ProductCreated render create refetch =>
      handleCreateProduct render create refetch st
  | ProductSelect selectedProducts => handleProductSelect selectedProducts st
  | ToggleModal modalName state => toggleModal modalName state st
  | CancelClick =>
      if submit_disabled st then st else setCancelModalOpen true st
  | KeepEditing => setCancelModalOpen false st
  | SelectedSupplierEffect => selectedSupplier_effect st
  | TotalPriceEffect => totalPrice_effect st
  | TimeoutFires k => timeout_fires k st
  end.

(** A run of the form: its state, and how many calls of [props.onSubmit]
    have not settled. *)
Record Run := {
  state : State;
  inFlight : nat
}.

(** A click on a disabled button calls no handler; [formik.handleSubmit]
    calls [onSubmit] only when the validation schema accepts the values
    ([valid]); a promise settles only while one is pending. *)
Definition step (e : Event) (r : Run) : Run :=
  let st := state r in
  match e with
  | SubmitClick valid =>
      if submit_disabled st then r
      else if valid
           then {| state := onSubmit_begin st; inFlight := S (inFlight r) |}
           else r
  | SubmitSettled res =>
      match inFlight r with
      | O => r
      | S n => {| state := onSubmit_settled res st; inFlight := n |}
      end
  | _ => {| state := handle e st; inFlight := inFlight r |}
  end.

Definition run (events : list Event) (r : Run) : Run :=
  fold_left (fun r e => step e r) events r.

Definition start (initialData : option IncomeData.t) : Run :=
  {| state := init initialData; inFlight := 0 |}.

End IncomeForm.


(** ** ViewProducts: the product catalog *)

Module ViewProducts.

Record Modals := {
  create : bool;
  details : bool;
  update : bool;
  delete : bool
}.

Inductive ModalName := Create | Details | Update | Delete.

Record State := {
  products : list ProductData.t;
  selectedProduct : option ProductData.t;
  urlImageProduct : string;
  alertConfig : AlertConfig.t;
  modals : Modals
}.

Definition setSelectedProduct v (st : State) : State :=
  {| products := products st; selectedProduct := v;
     urlImageProduct := urlImageProduct st; alertConfig := alertConfig st;
     modals := modals st |}.

Definition setUrlImageProduct v (st : State) : State :=
  {| products := products st; selectedProduct := selectedProduct st;
     urlImageProduct := v; alertConfig := alertConfig st;
     modals := modals st |}.

Definition setModals v (st : State) : State :=
  {| products := products st; selectedProduct := selectedProduct st;
     urlImageProduct := urlImageProduct st; alertConfig := alertConfig st;
     modals := v |}.

Definition is_open (modalName : ModalName) (m : Modals) : bool :=
  match modalName with
  | Create => create m
  | Details => details m
  | Update => update m
  | Delete => delete m
  end.

(** [{ ...prev, [modalName]: state ?? !prev[modalName] }] *)
Definition toggleModal (modalName : ModalName) (state : option bool)
    (st : State) : State :=
  let prev := modals st in
  let v := match state with
           | Some b => b
           | None => negb (is_open modalName prev)
           end in
  setModals
    match modalName with
    | Create => {| create := v; details := details prev;
                   update := update prev; delete := delete prev |}
    | Details => {| create := create prev; details := v;
                    update := update prev; delete := delete prev |}
    | Update => {| create := create prev; details := details prev;
                   update := v; delete := delete prev |}
    | Delete => {| create := create prev; details := details prev;
                   update := update prev; delete := v |}
    end st.

(** [download] is how the request of the image settles (the object URL
    made of the blob); its failure is only printed. *)
Definition fetchImageById (download : Api.result string) (st : State) : State :=
  match download with
  | Api.Fulfilled imageUrl => setUrlImageProduct imageUrl st
  | Api.Rejected _ => st
  end.

Definition handleClicModal (modal : ModalName) (data : ProductData.t)
    (download : Api.result string) (st : State) : State :=
  let st := toggleModal modal None (setSelectedProduct (Some data) st) in
  match modal with
  | Details | Update =>
      match ProductData.image data with
      | Some (String _ _) => fetchImageById download st
      | _ => st
      end
  | _ => st
  end.

(** A button of the cell the [Acciones] column renders for a row: the
    modal its click asks [handleClicModal] for, and its [disabled]. *)
Record Button := {
  opens : ModalName;
  disabled : bool
}.

Definition action_buttons (row : ProductData.t) : list Button :=
  [ {| opens := Details; disabled := false |};
    {| opens := Update; disabled := negb (JS.is_true (ProductData.status row)) |};
    {| opens := Delete; disabled := negb (JS.is_true (ProductData.status row)) |} ].

(** A click on a button of the row: a disabled button calls no handler. *)
Definition click (b : Button) (row : ProductData.t)
    (download : Api.result string) (st : State) : State :=
  if disabled b then st
  else handleClicModal (opens b) row download st.

End ViewProducts.


(** ** The total in exact arithmetic

    The formula [round(sum(quantity × price) × 1.18, 2)] read over the
    rationals, to compare the effect of the income form with. *)

Module DecimalSpec.

(** The rational a finite binary64 number stands for. *)
Definition exact (x : JS.number) : Q :=
  match Prim2SF x with
  | S754_finite s m e =>
      ((if s then -1 else 1) * inject_Z (Zpos m) * Qpower 2 e)%Q
  | _ => 0%Q
  end.

Definition amount (p : Product.t) : Q :=
  match Product.quantity p, Product.price p with
  | Some q, Some pr => (exact q * exact pr)%Q
  | _, _ => 0%Q
  end.

Definition sum (items : list Product.t) : Q :=
  fold_right (fun p acc => (amount p + acc)%Q) 0%Q items.

(** The integer nearest to a rational, the larger one on a tie. *)
Definition round_half_up (x : Q) : Z := Qfloor (x + (1 # 2))%Q.

(** The total, in hundredths. *)
Definition total_hundredths (items : list Product.t) : Z :=
  round_half_up (sum items * (118 # 100) * 100)%Q.

End DecimalSpec.

(** ** Derived state of the income form *)

Module IncomeState.

(** [product.quantity * product.price] *)
Definition amount (product : Product.t) : JS.number :=
  (JS.ToNumber (Product.quantity product)
   * JS.ToNumber (Product.price product))%float.

(** Whether the line adds its amount to the sum: the amount is truthy. *)
Definition counts (product : Product.t) : bool :=
  JS.ToBoolean (amount product).

(** The stored total is the one of the lines of the draft, but for the
    sign of a zero. *)
Definition total_current (st : IncomeForm.State) : Prop :=
  JS.same_number
    (IncomeData.totalPrice (IncomeForm.values st))
    (IncomeForm.totalPrice_of (IncomeData.products (IncomeForm.values st))).

(** The selected supplier is the one the cache holds for [origin.id]. *)
Definition resolved (st : IncomeForm.State) : Prop :=
  IncomeForm.selectedSupplier st
  = IncomeForm.find_supplier (IncomeForm.suppliers st)
      (Origin.id (IncomeData.origin (IncomeForm.values st))).

(** Every pending timeout sets an alert that is not visible. *)
Definition timeouts_hide (st : IncomeForm.State) : Prop :=
  Forall (fun t => AlertConfig.visible (IncomeForm.alert t) = false)
    (IncomeForm.timeouts st).

(** An alert on screen has a timeout pending. *)
Definition alert_expires (st : IncomeForm.State) : Prop :=
  AlertConfig.visible (IncomeForm.alertConfig st) = true ->
  IncomeForm.timeouts st <> [].

End IncomeState.

(** ** The supplier form and the income form as runs *)

Module FormState.

(** The draft of the supplier form after the edits among the events. *)
Definition edited (events : list SupplierForm.Event) (v : SupplierData.t)
    : SupplierData.t :=
  fold_left (fun v e => match e with
                        | SupplierForm.Edit change => change v
                        | _ => v
                        end) events v.

(** An error alert of the supplier form on screen has a timeout pending. *)
Definition supplier_alert_expires (st : SupplierForm.State) : Prop :=
  SupplierForm.showErrorAlert st = true -> SupplierForm.timeouts st <> [].

(** The alert and the timeouts of the income form go together. *)
Definition income_alerts_ok (st : IncomeForm.State) : Prop :=
  IncomeState.timeouts_hide st /\ IncomeState.alert_expires st.

End FormState.

(** ** The rest of the product catalog *)

Module CatalogPage.

(** What the [Estado] column renders for a value: the color and the text
    of the badge. *)
Record Badge := {
  color : string;
  text : string
}.

Definition status_badge (value : JS.value) : Badge :=
  {| color := if JS.is_true value then "success" else "danger";
     text := if JS.is_true value then "Activo" else "Inactivo" |}.

Definition setProducts v (st : ViewProducts.State) : ViewProducts.State :=
  {| ViewProducts.products := v;
     ViewProducts.selectedProduct := ViewProducts.selectedProduct st;
     ViewProducts.urlImageProduct := ViewProducts.urlImageProduct st;
     ViewProducts.alertConfig := ViewProducts.alertConfig st;
     ViewProducts.modals := ViewProducts.modals st |}.

Definition setAlertConfig v (st : ViewProducts.State) : ViewProducts.State :=
  {| ViewProducts.products := ViewProducts.products st;
     ViewProducts.selectedProduct := ViewProducts.selectedProduct st;
     ViewProducts.urlImageProduct := ViewProducts.urlImageProduct st;
     ViewProducts.alertConfig := v;
     ViewProducts.modals := ViewProducts.modals st |}.

(** The page: the state of the component, the callbacks of the pending
    [setTimeout(.., 5000)] (each sets the alert it holds), what
    [console.error] has printed, the URLs given to [URL.revokeObjectURL],
    and how many calls of [handleFetchProducts] have not settled. *)
Record State := {
  view : ViewProducts.State;
  timeouts : list AlertConfig.t;
  console : list string;
  revoked : list string;
  fetching : nat
}.

Definition lift (f : ViewProducts.State -> ViewProducts.State) (p : State) : State :=
  {| view := f (view p); timeouts := timeouts p; console := console p;
     revoked := revoked p; fetching := fetching p |}.

Definition setTimeout (callback : AlertConfig.t) (p : State) : State :=
  {| view := view p; timeouts := timeouts p ++ [callback]; console := console p;
     revoked := revoked p; fetching := fetching p |}.

Definition console_error (msg : string) (p : State) : State :=
  {| view := view p; timeouts := timeouts p; console := console p ++ [msg];
     revoked := revoked p; fetching := fetching p |}.

Definition revokeObjectURL (url : string) (p : State) : State :=
  {| view := view p; timeouts := timeouts p; console := console p;
     revoked := revoked p ++ [url]; fetching := fetching p |}.

Definition set_fetching (n : nat) (p : State) : State :=
  {| view := view p; timeouts := timeouts p; console := console p;
     revoked := revoked p; fetching := n |}.

Definition init : State :=
  {| view := {| ViewProducts.products := [];
                ViewProducts.selectedProduct := None;
                ViewProducts.urlImageProduct := "";
                ViewProducts.alertConfig :=
                  {| AlertConfig.visible := false; AlertConfig.color := "";
                     AlertConfig.message := "" |};
                ViewProducts.modals :=
                  {| ViewProducts.create := false; ViewProducts.details := false;
                     ViewProducts.update := false; ViewProducts.delete := false |} |};
     timeouts := []; console := []; revoked := []; fetching := 0 |}.

(** Handlers are closures of a render ([render]): they read its
    [alertConfig]. *)
Definition handleError (render : State) (message : string) (p : State) : State :=
  setTimeout (AlertConfig.hidden (ViewProducts.alertConfig (view render)))
    (lift (setAlertConfig {| AlertConfig.visible := true;
                             AlertConfig.color := "danger";
                             AlertConfig.message := message |})
       (console_error message p)).

Definition showAlert (render : State) (color message : string) (p : State) : State :=
  setTimeout (AlertConfig.hidden (ViewProducts.alertConfig (view render)))
    (lift (setAlertConfig {| AlertConfig.visible := true;
                             AlertConfig.color := color;
                             AlertConfig.message := message |}) p).

(** [handleFetchProducts], up to its [await]: the request is sent. *)
Definition handleFetchProducts_begin (p : State) : State :=
  set_fetching (S (fetching p)) p.

(** [handleFetchProducts], from its [await] on. *)
Definition handleFetchProducts_settled (render : State)
    (response : Api.result (list ProductData.t)) (p : State) : State :=
  let p := set_fetching (Nat.pred (fetching p)) p in
  match response with
  | Api.Fulfilled data => lift (setProducts data) p
  | Api.Rejected _ =>
      handleError render
        "Ha ocurrido un error al recuperar los productos, intentelo más tarde" p
  end.

(** The three handlers, from their [await] on: [outcome] is how the
    request settled. The call of [handleFetchProducts] in [then] is not
    awaited: it settles later. *)
Definition handleCreateProduct (render : State) (outcome : Api.result unit)
    (p : State) : State :=
  let p :=
    match outcome with
    | Api.Fulfilled _ =>
        handleFetchProducts_begin
          (showAlert render "success" "Producto creado con éxito" p)
    | Api.Rejected _ =>
        handleError render
          "Ha ocurrido un error al crear el producto, intentelo más tarde" p
    end in
  lift (ViewProducts.toggleModal ViewProducts.Create None) p.

Definition handleUpdateProduct (render : State) (outcome : Api.result unit)
    (p : State) : State :=
  let p :=
    match outcome with
    | Api.Fulfilled _ =>
        handleFetchProducts_begin
          (showAlert render "success" "Producto actualizado con éxito" p)
    | Api.Rejected _ =>
        handleError render
          "Ha ocurrido un error al actualizar el producto, intentelo más tarde" p
    end in
  lift (ViewProducts.setSelectedProduct None)
    (lift (ViewProducts.toggleModal ViewProducts.Update None) p).

Definition handleDeleteProduct (render : State) (outcome : Api.result unit)
    (p : State) : State :=
  let p :=
    match outcome with
    | Api.Fulfilled _ =>
        handleFetchProducts_begin
          (showAlert render "success" "Producto desactivado con éxito" p)
    | Api.Rejected _ =>
        handleError render
          "Ha ocurrido un error al desactivar el producto, intentelo más tarde" p
    end in
  lift (ViewProducts.setSelectedProduct None)
    (lift (ViewProducts.toggleModal ViewProducts.Delete None) p).

(** The product the confirm button of the delete modal asks
    [handleDeleteProduct] for: none when nothing is selected. *)
Definition confirm_delete (p : State) : option string :=
  option_map ProductData.id (ViewProducts.selectedProduct (view p)).

(** [handleClicModal], up to its [await]. *)
Definition handleClicModal_begin (modal : ViewProducts.ModalName)
    (data : ProductData.t) (st : ViewProducts.State) : ViewProducts.State :=
  ViewProducts.toggleModal modal None
    (ViewProducts.setSelectedProduct (Some data) st).

(** Whether [handleClicModal] asks for the image. *)
Definition wants_image (modal : ViewProducts.ModalName) (data : ProductData.t)
    : bool :=
  match modal with
  | ViewProducts.Details | ViewProducts.Update =>
      match ProductData.image data with
      | Some (String _ _) => true
      | _ => false
      end
  | _ => false
  end.

(** [handleClicModal], from its [await] on. *)
Definition handleClicModal_settled (modal : ViewProducts.ModalName)
    (data : ProductData.t) (download : Api.result string)
    (st : ViewProducts.State) : ViewProducts.State :=
  if wants_image modal data then ViewProducts.fetchImageById download st else st.

(** The effect on [selectedProduct]. *)
Definition selectedProduct_effect (p : State) : State :=
  match ViewProducts.urlImageProduct (view p) with
  | EmptyString => p
  | url => revokeObjectURL url p
  end.

(** The [k]-th pending timeout fires. *)
Definition timeout_fires (k : nat) (p : State) : State :=
  match nth_error (timeouts p) k with
  | None => p
  | Some a =>
      lift (setAlertConfig a)
        {| view := view p;
           timeouts := firstn k (timeouts p) ++ skipn (S k) (timeouts p);
           console := console p; revoked := revoked p; fetching := fetching p |}
  end.

Inductive Event :=
| Mounted
| ProductsFetched (render : State) (response : Api.result (list ProductData.t))
| Created (render : State) (outcome : Api.result unit)
| Updated (render : State) (outcome : Api.result unit)
| Deleted (render : State) (outcome : Api.result unit)
| Click (b : ViewProducts.Button) (row : ProductData.t)
        (download : Api.result string)
| ToggleModal (modalName : ViewProducts.ModalName) (state : option bool)
| SelectedProductEffect
| TimeoutFires (k : nat).

Definition step (e : Event) (p : State) : State :=
  match e with
  | Mounted => handleFetchProducts_begin p
  | ProductsFetched render response =>
      handleFetchProducts_settled render response p
  | Created render outcome => handleCreateProduct render outcome p
  | Updated render outcome => handleUpdateProduct render outcome p
  | Deleted render outcome => handleDeleteProduct render outcome p
  | Click b row download => lift (ViewProducts.click b row download) p
  | ToggleModal modalName state =>
      lift (ViewProducts.toggleModal modalName state) p
  | SelectedProductEffect => selectedProduct_effect p
  | TimeoutFires k => timeout_fires k p
  end.

Definition run (events : list Event) (p : State) : State :=
  fold_left (fun p e => step e p) events p.

(** Every pending timeout sets an alert that is not visible, and an alert
    on screen has a timeout pending. *)
Definition alerts_ok (p : State) : Prop :=
  Forall (fun a => AlertConfig.visible a = false) (timeouts p)
  /\ (AlertConfig.visible (ViewProducts.alertConfig (view p)) = true ->
      timeouts p <> []).

End CatalogPage.

(** ** IncomeDetails: the page of one income *)

Module IncomeDetails.

Record Attribute := {
  key : string;
  label : string
}.

(** The array [incomeAttributes] with [v] as the label of its fourth
    entry. The module makes it with [v] the empty string. *)
Definition attributes_with (v : string) : list Attribute :=
  [ {| key := "id"; label := "Identificador" |};
    {| key := "warehouse"; label := "Almacén" |};
    {| key := "date"; label := "Fecha" |};
    {| key := "origin.id"; label := v |};
    {| key := "totalPrice"; label := "Precio Total" |};
    {| key := "incomeType"; label := "Tipo de alta" |} ].

Definition incomeAttributes : list Attribute := attributes_with "".

(** [attributes[i].label = v]: a [TypeError] ([None]) when the array has
    no entry [i]. *)
Definition set_label (i : nat) (v : string) (attributes : list Attribute)
    : option (list Attribute) :=
  match nth_error attributes i with
  | Some a =>
      Some (firstn i attributes
            ++ {| key := key a; label := v |} :: skipn (S i) attributes)%list
  | None => None
  end.

(** The state of one instance of the page; [incomeDisplay] is [None] for
    the empty object it starts as. *)
Record State := {
  alertConfig : AlertConfig.t;
  incomeDetails : option IncomeData.t;
  incomeDisplay : option IncomeData.t;
  productsIncome : list ProductData.t
}.

Definition setAlertConfig v (st : State) : State :=
  {| alertConfig := v; incomeDetails := incomeDetails st;
     incomeDisplay := incomeDisplay st; productsIncome := productsIncome st |}.

Definition setIncomeDetails v (st : State) : State :=
  {| alertConfig := alertConfig st; incomeDetails := v;
     incomeDisplay := incomeDisplay st; productsIncome := productsIncome st |}.

Definition setIncomeDisplay v (st : State) : State :=
  {| alertConfig := alertConfig st; incomeDetails := incomeDetails st;
     incomeDisplay := v; productsIncome := productsIncome st |}.

Definition setProductsIncome v (st : State) : State :=
  {| alertConfig := alertConfig st; incomeDetails := incomeDetails st;
     incomeDisplay := incomeDisplay st; productsIncome := v |}.

Definition init : State :=
  {| alertConfig := {| AlertConfig.visible := false; AlertConfig.color := "";
                       AlertConfig.message := "" |};
     incomeDetails := None; incomeDisplay := None; productsIncome := [] |}.

(** The module and the instance of the page that is mounted:
    [attributes] is the array of the module, which every instance reads
    and writes; then the state of the instance, the callbacks of its
    pending timeouts, what [console.error] has printed, and how many
    requests of [handleFetchIncomeProducts] have not settled. *)
Record World := {
  attributes : list Attribute;
  page : State;
  timeouts : list AlertConfig.t;
  console : list string;
  asked : nat
}.

Definition set_page (f : State -> State) (w : World) : World :=
  {| attributes := attributes w; page := f (page w); timeouts := timeouts w;
     console := console w; asked := asked w |}.

Definition set_attributes (v : list Attribute) (w : World) : World :=
  {| attributes := v; page := page w; timeouts := timeouts w;
     console := console w; asked := asked w |}.

Definition set_asked (n : nat) (w : World) : World :=
  {| attributes := attributes w; page := page w; timeouts := timeouts w;
     console := console w; asked := n |}.

Definition loaded : World :=
  {| attributes := incomeAttributes; page := init; timeouts := [];
     console := []; asked := 0 |}.

(** A new instance of the page is mounted: the module stays. *)
Definition mount (w : World) : World :=
  {| attributes := attributes w; page := init; timeouts := [];
     console := console w; asked := 0 |}.

Definition handleError (render : State) (message : string) (w : World) : World :=
  {| attributes := attributes w;
     page := setAlertConfig {| AlertConfig.visible := true;
                               AlertConfig.color := "danger";
                               AlertConfig.message := message |} (page w);
     timeouts := timeouts w ++ [AlertConfig.hidden (alertConfig render)];
     console := console w ++ [message];
     asked := asked w |}.

Definition handleFetchIncome (render : State)
    (response : Api.result IncomeData.t) (w : World) : World :=
  match response with
  | Api.Fulfilled incomeFound => set_page (setIncomeDetails (Some incomeFound)) w
  | Api.Rejected _ =>
      handleError render "El servicio no esta disponible, intentelo más tarde" w
  end.

(** What [response.data.data] of the display request is, which nothing
    types: an object with an [origin], or a payload that has none (an
    object without the field, [null] or [undefined]). *)
Inductive Display :=
| WithOrigin (incomeFound : IncomeData.t)
| NoOrigin.

(** The label the display of an income asks for. *)
Definition origin_label (incomeFound : IncomeData.t) : string :=
  if Origin.originType (IncomeData.origin incomeFound) =? "supplier"
  then "Proveedor" else "Almacén de origen".

(** An exception in [then] lands in [catch]: reading
    [incomeFound.origin.originType] of a payload without [origin] throws a
    [TypeError] before anything is stored. *)
Definition handleFetchIncomeDisplay (render : State)
    (response : Api.result Display) (w : World) : World :=
  let failed :=
    handleError render
      "Ha ocurrido un error al obtener los datos de la entrada, intentelo más tarde"
      w in
  match response with
  | Api.Fulfilled (WithOrigin incomeFound) =>
      match set_label 3 (origin_label incomeFound) (attributes w) with
      | Some attributes' =>
          set_page (setIncomeDisplay (Some incomeFound))
            (set_attributes attributes' w)
      | None => failed
      end
  | Api.Fulfilled NoOrigin => failed
  | Api.Rejected _ => failed
  end.

(** [handleFetchIncomeProducts], up to its [await]: the request is sent
    when the render it closes over has the income. *)
Definition handleFetchIncomeProducts_begin (render : State) (w : World) : World :=
  match incomeDetails render with
  | Some _ => set_asked (S (asked w)) w
  | None => w
  end.

(** [handleFetchIncomeProducts], from its [await] on. *)
Definition handleFetchIncomeProducts_settled (render : State)
    (response : Api.result (list ProductData.t)) (w : World) : World :=
  let w := set_asked (Nat.pred (asked w)) w in
  match response with
  | Api.Fulfilled data => set_page (setProductsIncome data) w
  | Api.Rejected _ =>
      handleError render "El servicio no esta disponible, intentelo más tarde" w
  end.

(** The effect on [incomeDetails]. *)
Definition incomeDetails_effect (w : World) : World :=
  handleFetchIncomeProducts_begin (page w) w.

(** Where the details button of a row of the table navigates to. *)
Definition handleClicProductDetails (row : ProductData.t) (st : State) : string :=
  "/warehouse/inventory/product_details?warehouse="
  ++ match incomeDetails st with
     | Some d => IncomeData.warehouse d
     | None => "undefined"
     end
  ++ "&product=" ++ ProductData.id row.

Inductive Navigation := Back | To (path : string).

(** [historyLength] is [window.history.length]. *)
Definition handleBack (historyLength : nat) : Navigation :=
  if (1 <? historyLength)%nat then Back else To "/#".

(** The attributes and the object the details card shows, when there is
    one. *)
Definition details_card (w : World)
    : option (list Attribute * option IncomeData.t) :=
  match incomeDetails (page w) with
  | Some _ => Some (attributes w, incomeDisplay (page w))
  | None => None
  end.

Definition timeout_fires (k : nat) (w : World) : World :=
  match nth_error (timeouts w) k with
  | None => w
  | Some a =>
      {| attributes := attributes w; page := setAlertConfig a (page w);
         timeouts := firstn k (timeouts w) ++ skipn (S k) (timeouts w);
         console := console w; asked := asked w |}
  end.

Inductive Event :=
| Mount
| IncomeFetched (render : State) (response : Api.result IncomeData.t)
| DisplayFetched (render : State) (response : Api.result Display)
| IncomeDetailsEffect
| ProductsFetched (render : State) (response : Api.result (list ProductData.t))
| TimeoutFires (k : nat).

(** A request settles only while one is pending. *)
Definition step (e : Event) (w : World) : World :=
  match e with
  | Mount => mount w
  | IncomeFetched render response => handleFetchIncome render response w
  | DisplayFetched render response => handleFetchIncomeDisplay render response w
  | IncomeDetailsEffect => incomeDetails_effect w
  | ProductsFetched render response =>
      match asked w with
      | O => w
      | S _ => handleFetchIncomeProducts_settled render response w
      end
  | TimeoutFires k => timeout_fires k w
  end.

Definition run (events : list Event) (w : World) : World :=
  fold_left (fun w e => step e w) events w.

(** The label the latest display among the events that was fulfilled
    with an [origin] asks for; [v] when there is none. *)
Definition latest_label (events : list Event) (v : string) : string :=
  fold_left (fun v e => match e with
                        | DisplayFetched _ (Api.Fulfilled (WithOrigin incomeFound)) =>
                            origin_label incomeFound
                        | _ => v
                        end) events v.

(** The products are listed, or asked for, only with the income loaded. *)
Definition products_need_income (w : World) : Prop :=
  (asked w <> 0 \/ productsIncome (page w) <> []) ->
  incomeDetails (page w) <> None.

End IncomeDetails.

(** ** OutcomeDetails: the page of one outcome *)

Module OutcomeData.
(** Modelled from the spec: the declaration of [OutcomeData] (in
    OutcomeForm) is not among the sources; these are the fields the page
    reads. *)
Record t := {
  id : string;
  date : string;
  warehouseOrigin : string;
  outcomeType : string;
  warehouseDestiny : string;
  products : list Product.t
}.
End OutcomeData.

Module OutcomeDetails.

(** The warehouse the page shows: the fields of
    [warehouseDestinyAttributes]. *)
Record Warehouse := {
  id : string;
  name : string;
  manager : string;
  location : string
}.

(** [outcome] is [None] while [undefined]; [warehouseDestiny] is [None]
    for the empty object it starts as. *)
Record State := {
  alertConfig : AlertConfig.t;
  outcome : option OutcomeData.t;
  warehouseDestiny : option Warehouse;
  productsOutcome : list ProductData.t
}.

Definition setAlertConfig v (st : State) : State :=
  {| alertConfig := v; outcome := outcome st;
     warehouseDestiny := warehouseDestiny st;
     productsOutcome := productsOutcome st |}.

Definition setOutcome v (st : State) : State :=
  {| alertConfig := alertConfig st; outcome := v;
     warehouseDestiny := warehouseDestiny st;
     productsOutcome := productsOutcome st |}.

Definition setWarehouseDestiny v (st : State) : State :=
  {| alertConfig := alertConfig st; outcome := outcome st;
     warehouseDestiny := v; productsOutcome := productsOutcome st |}.

Definition setProductsOutcome v (st : State) : State :=
  {| alertConfig := alertConfig st; outcome := outcome st;
     warehouseDestiny := warehouseDestiny st; productsOutcome := v |}.

Definition init : State :=
  {| alertConfig := {| AlertConfig.visible := false; AlertConfig.color := "";
                       AlertConfig.message := "" |};
     outcome := None; warehouseDestiny := None; productsOutcome := [] |}.

(** A request the page sends after the first one: the warehouse with an
    identifier ([warehouse/find_id/<id>]), or the products of a body
    ([product/find_products_by_array]; [None] for an [undefined] body). *)
Inductive Request :=
| FindWarehouse (id : string)
| FindProducts (body : option (list Product.t)).

(** The page: its state, the callbacks of its pending timeouts, what
    [console.error] has printed, and the requests it has sent. *)
Record Page := {
  state : State;
  timeouts : list AlertConfig.t;
  console : list string;
  requests : list Request
}.

Definition set_state (f : State -> State) (p : Page) : Page :=
  {| state := f (state p); timeouts := timeouts p; console := console p;
     requests := requests p |}.

Definition send (r : Request) (p : Page) : Page :=
  {| state := state p; timeouts := timeouts p; console := console p;
     requests := requests p ++ [r] |}.

Definition mounted : Page :=
  {| state := init; timeouts := []; console := []; requests := [] |}.

Definition handleError (render : State) (message : string) (p : Page) : Page :=
  {| state := setAlertConfig {| AlertConfig.visible := true;
                                AlertConfig.color := "danger";
                                AlertConfig.message := message |} (state p);
     timeouts := timeouts p ++ [AlertConfig.hidden (alertConfig render)];
     console := console p ++ [message];
     requests := requests p |}.

(** [handleFetchOutcome], from its [await] on. *)
Definition handleFetchOutcome (render : State)
    (response : Api.result OutcomeData.t) (p : Page) : Page :=
  match response with
  | Api.Fulfilled data => set_state (setOutcome (Some data)) p
  | Api.Rejected _ =>
      handleError render
        "Ha ocurrido un error al obtener los datos, intentelo más tarde" p
  end.

(** [handleFetchWarehouseDestiny], up to its [await]: the identifier in
    the URL is [outcome?.warehouseDestiny] of the render. *)
Definition handleFetchWarehouseDestiny_begin (render : State) (p : Page) : Page :=
  send (FindWarehouse match outcome render with
                      | Some o => OutcomeData.warehouseDestiny o
                      | None => "undefined"
                      end) p.

Definition handleFetchWarehouseDestiny_settled (render : State)
    (response : Api.result Warehouse) (p : Page) : Page :=
  match response with
  | Api.Fulfilled data => set_state (setWarehouseDestiny (Some data)) p
  | Api.Rejected _ =>
      handleError render
        "Ha ocurrido un error al obtener los datos del almacén de destino, intentelo más tarde"
        p
  end.

(** [handleFetchOutcomeProducts], up to its [await]: the body is
    [outcome?.products] of the render. *)
Definition handleFetchOutcomeProducts_begin (render : State) (p : Page) : Page :=
  send (FindProducts (option_map OutcomeData.products (outcome render))) p.

Definition handleFetchOutcomeProducts_settled (render : State)
    (response : Api.result (list ProductData.t)) (p : Page) : Page :=
  match response with
  | Api.Fulfilled data => set_state (setProductsOutcome data) p
  | Api.Rejected _ =>
      handleError render
        "Ha ocurrido un error la obtener los datos de los productos, intentelo más tarde"
        p
  end.

(** The effect on [outcome]. *)
Definition outcome_effect (p : Page) : Page :=
  match outcome (state p) with
  | Some _ =>
      handleFetchOutcomeProducts_begin (state p)
        (handleFetchWarehouseDestiny_begin (state p) p)
  | None => p
  end.

(** The path [handleClicProductDetails] hands to [history]. The page
    declares the function and binds it to nothing: [productColumns] has no
    column of actions. *)
Definition handleClicProductDetails (row : ProductData.t) (st : State) : string :=
  "/warehouse/inventory/product_details?warehouse="
  ++ match outcome st with
     | Some o => OutcomeData.warehouseDestiny o
     | None => "undefined"
     end
  ++ "&product=" ++ ProductData.id row.

(** [historyLength] is [window.history.length]. *)
Definition handleBack (historyLength : nat) : IncomeDetails.Navigation :=
  if (1 <? historyLength)%nat then IncomeDetails.Back
  else IncomeDetails.To "/warehouse/outcomes/view_outcomes".

Definition timeout_fires (k : nat) (p : Page) : Page :=
  match nth_error (timeouts p) k with
  | None => p
  | Some a =>
      {| state := setAlertConfig a (state p);
         timeouts := firstn k (timeouts p) ++ skipn (S k) (timeouts p);
         console := console p; requests := requests p |}
  end.

Inductive Event :=
| OutcomeFetched (render : State) (response : Api.result OutcomeData.t)
| OutcomeEffect
| WarehouseFetched (render : State) (response : Api.result Warehouse)
| ProductsFetched (render : State) (response : Api.result (list ProductData.t))
| TimeoutFires (k : nat).

(** A request settles only after it was sent. *)
Definition step (e : Event) (p : Page) : Page :=
  match e with
  | OutcomeFetched render response => handleFetchOutcome render response p
  | OutcomeEffect => outcome_effect p
  | WarehouseFetched render response =>
      match requests p with
      | [] => p
      | _ => handleFetchWarehouseDestiny_settled render response p
      end
  | ProductsFetched render response =>
      match requests p with
      | [] => p
      | _ => handleFetchOutcomeProducts_settled render response p
      end
  | TimeoutFires k => timeout_fires k p
  end.

Definition run (events : list Event) (p : Page) : Page :=
  fold_left (fun p e => step e p) events p.

(** The outcome [o] was the payload of a fulfilled fetch among the
    events. *)
Definition fetched (events : list Event) (o : OutcomeData.t) : Prop :=
  exists render, In (OutcomeFetched render (Api.Fulfilled o)) events.

End OutcomeDetails.

(** * Properties *)

(** ** Binary64 rounding

    Facts about the reference implementation of binary64 arithmetic that
    the primitive operations are specified by. *)

Module Binary64.
Local Open Scope Z_scope.

Lemma digits2_pos_size (p : positive) : digits2_pos p = Pos.size p.
Proof. induction p; simpl; congruence. Qed.

Lemma digits2_pos_le (p : positive) : 2 ^ (Zpos (digits2_pos p) - 1) <= Zpos p.
Proof.
  rewrite digits2_pos_size.
  pose proof (Pos.size_le p) as H.
  assert (Hp : (Zpos (2 ^ Pos.size p) <= Zpos p~0)) by exact H.
  rewrite Pos2Z.inj_pow in Hp.
  replace (Zpos (Pos.size p)) with (Z.succ (Zpos (Pos.size p) - 1)) in Hp by lia.
  rewrite Z.pow_succ_r in Hp by lia.
  lia.
Qed.

Lemma shr_1_m (mrs : shr_record) :
  0 <= shr_m mrs -> shr_m (shr_1 mrs) = shr_m mrs / 2.
Proof.
  destruct mrs as [m r s]; simpl; intros Hm.
  destruct m as [|[p|p|]|p]; cbn [shr_m]; try lia; try reflexivity.
  - apply Z.div_unique with (r := 1); lia.
  - apply Z.div_unique with (r := 0); lia.
Qed.

Lemma iter_shr_1_m (k : positive) : forall mrs,
  0 <= shr_m mrs ->
  shr_m (iter_pos shr_1 k mrs) = shr_m mrs / 2 ^ Zpos k.
Proof.
  induction k as [k IH|k IH|]; intros mrs Hm; simpl iter_pos.
  - assert (H1 : 0 <= shr_m (shr_1 mrs)).
    { rewrite shr_1_m by assumption. apply Z.div_pos; lia. }
    assert (H2 : 0 <= shr_m (iter_pos shr_1 k (shr_1 mrs))).
    { rewrite IH by assumption. apply Z.div_pos; lia. }
    rewrite IH, IH, shr_1_m by assumption.
    rewrite !Z.div_div by lia.
    f_equal.
    replace (Zpos k~1) with (1 + Zpos k + Zpos k) by lia.
    rewrite !Z.pow_add_r by lia. lia.
  - assert (H2 : 0 <= shr_m (iter_pos shr_1 k mrs)).
    { rewrite IH by assumption. apply Z.div_pos; lia. }
    rewrite IH, IH by assumption.
    rewrite Z.div_div by lia.
    f_equal.
    replace (Zpos k~0) with (Zpos k + Zpos k) by lia.
    rewrite Z.pow_add_r by lia. lia.
  - rewrite shr_1_m by assumption. reflexivity.
Qed.

Lemma shr_m_of_loc (m : Z) (l : location) : shr_m (shr_record_of_loc m l) = m.
Proof. destruct l as [|[ | | ]]; reflexivity. Qed.

(** Shifting a positive mantissa down to its format keeps it positive,
    when the exponent is not below the least one. *)
Lemma shr_fexp_positive (m e : Z) (l : location) :
  0 < m -> emin <= e ->
  0 < shr_m (fst (shr_fexp prec emax m e l))
  /\ emin <= snd (shr_fexp prec emax m e l).
Proof.
  intros Hm He. unfold shr_fexp, shr.
  destruct m as [|p|p]; try lia. simpl Zdigits2.
  pose proof (digits2_pos_le p) as Hd.
  set (d := Zpos (digits2_pos p)) in *.
  unfold fexp. fold emin.
  destruct (Z.max (d + e - prec) emin - e) as [|k|k] eqn:Hn; simpl fst; simpl snd.
  - rewrite shr_m_of_loc. lia.
  - rewrite iter_shr_1_m by (rewrite shr_m_of_loc; lia).
    rewrite shr_m_of_loc. split; [|lia].
    assert (Hk : Zpos k = d - prec) by lia.
    apply Z.div_str_pos. split; [apply Z.pow_pos_nonneg; lia|].
    rewrite Hk. eapply Z.le_trans; [|exact Hd].
    apply Z.pow_le_mono_r; unfold prec; lia.
  - rewrite shr_m_of_loc. lia.
Qed.

Lemma round_nearest_even_ge (m : Z) (l : location) : m <= round_nearest_even m l.
Proof.
  destruct l as [|[ | | ]]; simpl; try lia.
  destruct (Z.even m); lia.
Qed.

Lemma binary_round_aux_not_zero (sx s : bool) (m e : Z) (l : location) :
  0 < m -> emin <= e ->
  binary_round_aux prec emax sx m e l <> S754_zero s.
Proof.
  intros Hm He. unfold binary_round_aux.
  destruct (shr_fexp_positive m e l Hm He) as [H1 H2].
  destruct (shr_fexp prec emax m e l) as [mrs' e']. simpl in H1, H2.
  pose proof (round_nearest_even_ge (shr_m mrs') (loc_of_shr_record mrs')) as H3.
  set (m1 := round_nearest_even (shr_m mrs') (loc_of_shr_record mrs')) in *.
  assert (Hm1 : 0 < m1) by lia.
  destruct (shr_fexp_positive m1 e' loc_Exact Hm1 H2) as [H4 _].
  destruct (shr_fexp prec emax m1 e' loc_Exact) as [mrs'' e'']. simpl in H4.
  destruct (shr_m mrs''); try lia.
  destruct (e'' <=? emax - prec); discriminate.
Qed.

Lemma shl_align_exponent (mx : positive) (ex ex' : Z) :
  emin <= ex -> emin <= ex' -> emin <= snd (shl_align mx ex ex').
Proof.
  intros. unfold shl_align. destruct (ex' - ex); simpl; lia.
Qed.

Lemma binary_round_not_zero (sx s : bool) (m : positive) (e : Z) :
  emin <= e -> binary_round prec emax sx m e <> S754_zero s.
Proof.
  intros He. unfold binary_round.
  pose proof (shl_align_exponent m e (fexp prec emax (Zpos (digits2_pos m) + e)) He) as H.
  destruct (shl_align m e _) as [mz ez]. simpl in H.
  apply binary_round_aux_not_zero; [lia|].
  apply H. unfold fexp. fold emin. lia.
Qed.

Lemma valid_exponent (s : bool) (m : positive) (e : Z) :
  valid_binary (S754_finite s m e) = true -> emin <= e.
Proof.
  unfold valid_binary, bounded, canonical_mantissa. intros H.
  apply andb_prop in H. destruct H as [H _]. apply Z.eqb_eq in H.
  unfold fexp in H. fold emin in H. lia.
Qed.

End Binary64.

(** ** JavaScript numbers *)

Module NumberFacts.
Import Binary64.

Definition neg_zero : spec_float := S754_zero true.

Lemma Prim2SF_zero : Prim2SF 0%float = S754_zero false.
Proof. reflexivity. Qed.

Lemma Prim2SF_nan : Prim2SF nan = S754_nan.
Proof. reflexivity. Qed.

(** The value of a decimal numeral, against the reader of the literals of
    the prover. *)
Example of_decimal_examples :
  JS.of_decimal 2950 2 = 29.5%float
  /\ JS.of_decimal 147 2 = 1.47%float
  /\ JS.of_decimal 1 2 = 0.01%float
  /\ JS.of_decimal 1234567890123456789 2 = 12345678901234567.89%float
  /\ JS.parseFloat (JS.StrFixed true 0 2) = (-0)%float.
Proof. repeat split. Qed.

(** [toFixed(2)] on a few numbers: 1.005 is under 1.005 in binary64 and
    prints as 1.00, 8.345 is over and prints as 8.35, a magnitude of 1e21
    prints as [ToString] does, and [-0] prints without a sign. *)
Example toFixed_examples :
  JS.toFixed 29.5%float 2 = JS.StrFixed false 2950 2
  /\ JS.toFixed 1.005%float 2 = JS.StrFixed false 100 2
  /\ JS.toFixed 8.345%float 2 = JS.StrFixed false 835 2
  /\ JS.toFixed (-2.5)%float 2 = JS.StrFixed true 250 2
  /\ JS.toFixed 0.125%float 2 = JS.StrFixed false 13 2
  /\ JS.toFixed (-0)%float 2 = JS.StrFixed false 0 2
  /\ JS.toFixed 1e21%float 2 = JS.StrToString 1e21%float
  /\ JS.toFixed nan 2 = JS.StrNaN.
Proof. repeat split. Qed.

Lemma SFeqb_refl_finite (s : bool) (m : positive) (e : Z) :
  SFeqb (S754_finite s m e) (S754_finite s m e) = true.
Proof.
  unfold SFeqb, SFcompare.
  rewrite Z.compare_refl, Pos.compare_cont_refl. destruct s; reflexivity.
Qed.

(** [ToBoolean] read on the representation. *)
Lemma ToBoolean_spec (x : JS.number) :
  JS.ToBoolean x =
  match Prim2SF x with
  | S754_zero _ | S754_nan => false
  | _ => true
  end.
Proof.
  unfold JS.ToBoolean, is_zero, is_nan.
  rewrite !eqb_spec. change (Prim2SF zero) with (S754_zero false).
  destruct (Prim2SF x) as [s|s| |s m e].
  - destruct s; reflexivity.
  - destruct s; reflexivity.
  - reflexivity.
  - rewrite SFeqb_refl_finite. destruct s; reflexivity.
Qed.

Lemma nan_mul_l (y : JS.number) : (nan * y)%float = nan.
Proof.
  apply Prim2SF_inj. rewrite mul_spec, Prim2SF_nan. reflexivity.
Qed.

Lemma nan_mul_r (x : JS.number) : (x * nan)%float = nan.
Proof.
  apply Prim2SF_inj. rewrite mul_spec, Prim2SF_nan.
  destruct (Prim2SF x); reflexivity.
Qed.

Lemma or_nan (b : JS.number) : JS.or nan b = b.
Proof. reflexivity. Qed.

(** Adding [0] changes no number but [-0]. *)
Lemma add_zero_r (x : JS.number) :
  Prim2SF x <> neg_zero -> (x + 0)%float = x.
Proof.
  intros Hx. apply Prim2SF_inj. rewrite add_spec, Prim2SF_zero.
  destruct (Prim2SF x) as [s|s| |s m e]; try reflexivity.
  destruct s; [contradiction Hx|]; reflexivity.
Qed.

(** A sum is [-0] only when both terms are. *)
Lemma add_not_neg_zero (x y : JS.number) :
  Prim2SF y <> neg_zero -> Prim2SF (x + y)%float <> neg_zero.
Proof.
  intros Hy. rewrite add_spec.
  pose proof (Prim2SF_valid x) as Vx. pose proof (Prim2SF_valid y) as Vy.
  destruct (Prim2SF x) as [sx|sx| |sx mx ex];
    destruct (Prim2SF y) as [sy|sy| |sy my ey];
    try (simpl; discriminate);
    try (destruct sx; simpl; discriminate);
    try (destruct sx; destruct sy; simpl; (discriminate || exact Hy)).
  apply valid_exponent in Vx. apply valid_exponent in Vy.
  unfold SF64add, SFadd, binary_normalize.
  match goal with
  | |- context [match ?M with Z0 => _ | Zpos _ => _ | Zneg _ => _ end] =>
      destruct M
  end.
  - discriminate.
  - apply binary_round_not_zero. lia.
  - apply binary_round_not_zero. lia.
Qed.

Lemma or_zero_not_neg_zero (a : JS.number) :
  Prim2SF (JS.or a 0%float) <> neg_zero.
Proof.
  unfold JS.or. rewrite ToBoolean_spec.
  destruct (Prim2SF a) eqn:Ha; try (rewrite Prim2SF_zero; discriminate);
    rewrite Ha; discriminate.
Qed.

Lemma is_zero_spec (x : JS.number) :
  is_zero x = match Prim2SF x with S754_zero _ => true | _ => false end.
Proof.
  unfold is_zero. rewrite eqb_spec. change (Prim2SF zero) with (S754_zero false).
  destruct (Prim2SF x) as [s|s| |s m e]; try reflexivity; destruct s; reflexivity.
Qed.

(** Two numbers that are [===] are the same number, or the two zeros. *)
Lemma eqb_same_number (a b : JS.number) :
  (a =? b)%float = true -> JS.same_number a b.
Proof.
  unfold JS.same_number. rewrite eqb_spec, !is_zero_spec. intros H.
  destruct (Prim2SF a) as [sa|sa| |sa ma ea] eqn:Ha;
    destruct (Prim2SF b) as [sb|sb| |sb mb eb] eqn:Hb;
    try (right; split; reflexivity);
    try discriminate H;
    try (destruct sa; discriminate H);
    try (destruct sb; discriminate H);
    left; apply Prim2SF_inj; rewrite Ha, Hb.
  - destruct sa, sb; try discriminate H; reflexivity.
  - unfold SFeqb, SFcompare in H.
    destruct sa, sb; try discriminate H;
      destruct (Z.compare ea eb) eqn:He; try discriminate H;
      apply Z.compare_eq in He; subst eb;
      destruct (Pos.compare_cont Eq ma mb) eqn:Hm; try discriminate H;
      apply Pos.compare_eq in Hm; subst mb; reflexivity.
Qed.

(** What [setFieldValue] leaves is the new number, but for the sign of a
    zero. *)
Lemma setIn_number_same (old new : JS.number) :
  JS.same_number (Formik.setIn_number old new) new.
Proof.
  unfold Formik.setIn_number.
  destruct (old =? new)%float eqn:H.
  - apply eqb_same_number, H.
  - left. reflexivity.
Qed.

(** It is the old number only when both are zeros. *)
Lemma setIn_number_kept (old new : JS.number) :
  Formik.setIn_number old new <> new ->
  Formik.setIn_number old new = old
  /\ is_zero old = true /\ is_zero new = true.
Proof.
  unfold Formik.setIn_number.
  destruct (old =? new)%float eqn:H; intros Hne; [|contradiction Hne; reflexivity].
  split; [reflexivity|].
  destruct (eqb_same_number old new H) as [Heq|Hz]; [contradiction|exact Hz].
Qed.

(** A number that is not a zero is written as it is. *)
Lemma setIn_number_exact (old new : JS.number) :
  is_zero new = false -> Formik.setIn_number old new = new.
Proof.
  intros Hz. unfold Formik.setIn_number.
  destruct (old =? new)%float eqn:H; [|reflexivity].
  destruct (eqb_same_number old new H) as [Heq|[_ Hn]]; [exact Heq|].
  rewrite Hz in Hn. discriminate Hn.
Qed.

Lemma setIn_number_idempotent (old new : JS.number) :
  Formik.setIn_number (Formik.setIn_number old new) new
  = Formik.setIn_number old new.
Proof.
  unfold Formik.setIn_number.
  destruct (old =? new)%float eqn:H.
  - rewrite H. reflexivity.
  - destruct (new =? new)%float; reflexivity.
Qed.

(** One half goes up: 0.125 is a binary64 value and rounds to 0.13, not
    to 0.12. *)
Example rounded_tie :
  JS.rounded 2 0.125%float 0.13%float /\ ~ JS.rounded 2 0.125%float 0.12%float.
Proof.
  assert (Hx : Prim2SF 0.125%float = S754_finite false 4503599627370496 (-55))
    by (vm_compute; reflexivity).
  assert (Hb : (1e21 <=? abs 0.125)%float = false) by (vm_compute; reflexivity).
  assert (H2 : Z.pow_pos 2 55 = 36028797018963968%Z) by (vm_compute; reflexivity).
  assert (H10 : Z.pow_pos 10 2 = 100%Z) by (vm_compute; reflexivity).
  unfold JS.rounded. rewrite Hx, Hb. cbv [JS.nearest_to]. rewrite H2, H10.
  split.
  - exists 13%Z. split; [lia|]. vm_compute. reflexivity.
  - intros [n [Hn Hy]].
    assert (n = 13%Z) by lia. subst n.
    apply (f_equal Prim2SF) in Hy. vm_compute in Hy. discriminate Hy.
Qed.

End NumberFacts.

(** ** The derived total of the income form *)

Module TotalFacts.
Import NumberFacts.

Definition line (quantity price : option JS.number) : Product.t :=
  {| Product.id := "P-1"; Product.quantity := quantity; Product.price := price |}.

Lemma pow_pos_positive (b : Z) (p : positive) : (0 < b -> 0 < Z.pow_pos b p)%Z.
Proof. intros Hb. rewrite Z.pow_pos_fold. apply Z.pow_pos_nonneg; lia. Qed.

Lemma nearest_integer_nearest (m e : Z) :
  (0 <= m)%Z -> JS.nearest_to (JS.nearest_integer m e) m e.
Proof.
  intros Hm. unfold JS.nearest_to, JS.nearest_integer.
  destruct e as [|p|p]; try reflexivity.
  assert (Hd : (0 < Z.pow_pos 2 p)%Z) by (apply pow_pos_positive; lia).
  set (d := Z.pow_pos 2 p) in *.
  pose proof (Z.div_mod (2 * m + d) (2 * d) ltac:(lia)) as Hq.
  pose proof (Z.mod_pos_bound (2 * m + d) (2 * d) ltac:(lia)) as Hr.
  set (q := ((2 * m + d) / (2 * d))%Z) in *.
  nia.
Qed.

(** There is one nearest integer: of two equally near, only the larger. *)
Lemma nearest_to_unique (n n' m e : Z) :
  JS.nearest_to n m e -> JS.nearest_to n' m e -> n = n'.
Proof.
  unfold JS.nearest_to. destruct e as [|p|p]; try congruence.
  assert (Hd : (0 < Z.pow_pos 2 p)%Z) by (apply pow_pos_positive; lia).
  set (d := Z.pow_pos 2 p) in *. intros H H'. nia.
Qed.

(** Rounding to decimal places is a function. *)
Lemma rounded_unique (f : positive) (x y y' : JS.number) :
  JS.rounded f x y -> JS.rounded f x y' -> y = y'.
Proof.
  unfold JS.rounded.
  destruct (Prim2SF x) as [s|s| |s m e]; try congruence.
  destruct (1e21 <=? abs x)%float; [congruence|].
  intros [n [Hn ->]] [n' [Hn' ->]].
  rewrite (nearest_to_unique n n' _ _ Hn Hn'). reflexivity.
Qed.

Lemma Prim2SF_nan_inv (x : JS.number) : Prim2SF x = S754_nan -> x = nan.
Proof. intros H. rewrite <- (SF2Prim_Prim2SF x), H. reflexivity. Qed.

Lemma Prim2SF_infinity_inv (x : JS.number) (s : bool) :
  Prim2SF x = S754_infinity s -> x = if s then neg_infinity else infinity.
Proof. intros H. rewrite <- (SF2Prim_Prim2SF x), H. destruct s; reflexivity. Qed.

(** [parseFloat(x.toFixed(f))] is [x] rounded to [f] decimal places. *)
Lemma parseFloat_toFixed_rounded (x : JS.number) (f : positive) :
  JS.rounded f x (JS.parseFloat (JS.toFixed x f)).
Proof.
  unfold JS.rounded, JS.toFixed.
  destruct (Prim2SF x) as [s|s| |s m e] eqn:Hx; cbn [JS.parseFloat].
  - reflexivity.
  - symmetry. apply Prim2SF_infinity_inv. exact Hx.
  - symmetry. apply Prim2SF_nan_inv. exact Hx.
  - destruct (1e21 <=? abs x)%float; cbn [JS.parseFloat]; [reflexivity|].
    eexists. split; [|reflexivity].
    apply nearest_integer_nearest.
    assert (0 < Z.pow_pos 10 f)%Z by (apply pow_pos_positive; lia). lia.
Qed.

Lemma add_product_not_neg_zero (sum : JS.number) (p : Product.t) :
  Prim2SF (IncomeForm.add_product sum p) <> neg_zero.
Proof. apply add_not_neg_zero, or_zero_not_neg_zero. Qed.

Lemma fold_add_product_not_neg_zero (l : list Product.t) : forall acc,
  Prim2SF acc <> neg_zero ->
  Prim2SF (fold_left IncomeForm.add_product l acc) <> neg_zero.
Proof.
  induction l as [|p l IH]; intros acc Hacc; simpl.
  - exact Hacc.
  - apply IH, add_product_not_neg_zero.
Qed.

Lemma subtotal_not_neg_zero (l : list Product.t) :
  Prim2SF (IncomeForm.subtotal l) <> neg_zero.
Proof.
  apply fold_add_product_not_neg_zero. rewrite Prim2SF_zero. discriminate.
Qed.

(** What a line with a missing field adds to the sum. *)
Lemma missing_amount (p : Product.t) :
  Product.quantity p = None \/ Product.price p = None ->
  JS.or (JS.ToNumber (Product.quantity p) * JS.ToNumber (Product.price p))%float
        0%float = 0%float.
Proof.
  intros [H|H]; rewrite H; cbn [JS.ToNumber].
  - rewrite nan_mul_l. reflexivity.
  - rewrite nan_mul_r. reflexivity.
Qed.

Lemma subtotal_app (l1 l2 : list Product.t) :
  IncomeForm.subtotal (l1 ++ l2)
  = fold_left IncomeForm.add_product l2 (IncomeForm.subtotal l1).
Proof. unfold IncomeForm.subtotal. apply fold_left_app. Qed.

Lemma subtotal_skip_missing (before after : list Product.t) (p : Product.t) :
  Product.quantity p = None \/ Product.price p = None ->
  IncomeForm.subtotal (before ++ p :: after)
  = IncomeForm.subtotal (before ++ after).
Proof.
  intros Hp. rewrite !subtotal_app. cbn [fold_left].
  unfold IncomeForm.add_product at 2.
  rewrite (missing_amount p Hp), add_zero_r by apply subtotal_not_neg_zero.
  reflexivity.
Qed.

End TotalFacts.

Module TotalClaims.
Import NumberFacts TotalFacts.

(** C1 (as amended). For every line-item collection, the total of the
    effect is the sum over the items of quantity × price, taken from left
    to right, times 1.18, rounded to 2 decimal places as [toFixed(2)]
    rounds, all of it in binary64 arithmetic; no other number is that
    rounding (one half goes up). What the effect leaves in [totalPrice] is
    that number but for the sign of a zero: it differs only when the
    record held a zero and the total is the other zero, which is then not
    written. The lines are left as they are; the lines [{2, 10}, {1, 5}]
    give 29.5 and no line gives 0. *)
Theorem totalPrice_effect_writes_rounded_total (st : IncomeForm.State) :
  let items := IncomeData.products (IncomeForm.values st) in
  let stored := IncomeData.totalPrice (IncomeForm.values st) in
  let total := IncomeForm.totalPrice_of items in
  let written := IncomeData.totalPrice
                   (IncomeForm.values (IncomeForm.totalPrice_effect st)) in
  JS.rounded 2 (IncomeForm.subtotal items * 1.18)%float total
  /\ (forall y, JS.rounded 2 (IncomeForm.subtotal items * 1.18)%float y ->
                y = total)
  /\ JS.same_number written total
  /\ (written <> total ->
      written = stored /\ is_zero stored = true /\ is_zero total = true)
  /\ IncomeData.products (IncomeForm.values (IncomeForm.totalPrice_effect st))
     = items
  /\ IncomeForm.subtotal [] = 0%float
  /\ (forall p,
        IncomeForm.subtotal (items ++ [p])
        = (IncomeForm.subtotal items
           + JS.or (JS.ToNumber (Product.quantity p)
                    * JS.ToNumber (Product.price p)) 0)%float)
  /\ IncomeForm.totalPrice_of
       [line (Some 2%float) (Some 10%float); line (Some 1%float) (Some 5%float)]
     = 29.5%float
  /\ IncomeForm.totalPrice_of [] = 0%float.
Proof.
  intros items stored total written.
  assert (Hr : JS.rounded 2 (IncomeForm.subtotal items * 1.18)%float total)
    by apply parseFloat_toFixed_rounded.
  split; [exact Hr|].
  split; [intros y Hy; exact (rounded_unique _ _ _ _ Hy Hr)|].
  split; [apply setIn_number_same|].
  split; [apply setIn_number_kept|].
  split; [reflexivity|].
  split; [reflexivity|].
  split; [intros p; rewrite subtotal_app; reflexivity|].
  split; vm_compute; reflexivity.
Qed.

(** C1, the claim as written fails: 5 × 0.25 is 1.25 and 1.25 × 1.18 is
    1.475, which rounds to 1.48; the effect computes in binary64, where
    1.18 is 0x1.2e147ae147ae1p+0, a little under 1.18, and the product
    0x1.7999999999999p+0, under 1.475, so [toFixed(2)] prints 1.47. *)
Lemma total_is_not_the_decimal_rounding :
  let items := [line (Some 5%float) (Some 0.25%float)] in
  DecimalSpec.total_hundredths items = 148%Z
  /\ IncomeForm.totalPrice_of items = JS.of_decimal 147 2
  /\ IncomeForm.totalPrice_of items
     <> JS.of_decimal (DecimalSpec.total_hundredths items) 2.
Proof.
  intros items. split; [|split].
  - vm_compute. reflexivity.
  - vm_compute. reflexivity.
  - intros H. apply (f_equal Prim2SF) in H. vm_compute in H. discriminate H.
Qed.

(** C2. A line whose quantity or price is missing adds 0 to the sum: the
    total of a collection with such a line is the total of the collection
    without it; the single line [{3, undefined}] gives 0. *)
Theorem missing_field_contributes_zero
    (before after : list Product.t) (p : Product.t) :
  Product.quantity p = None \/ Product.price p = None ->
  (forall sum, IncomeForm.add_product sum p = (sum + 0)%float)
  /\ IncomeForm.subtotal (before ++ p :: after)
     = IncomeForm.subtotal (before ++ after)
  /\ IncomeForm.totalPrice_of (before ++ p :: after)
     = IncomeForm.totalPrice_of (before ++ after)
  /\ IncomeForm.totalPrice_of [line (Some 3%float) None] = 0%float.
Proof.
  intros Hp. split; [|split; [|split]].
  - intros sum. unfold IncomeForm.add_product.
    rewrite (missing_amount p Hp). reflexivity.
  - apply subtotal_skip_missing, Hp.
  - unfold IncomeForm.totalPrice_of.
    rewrite (subtotal_skip_missing before after p Hp). reflexivity.
  - vm_compute. reflexivity.
Qed.

Lemma missing_field_contributes_zero_witness :
  IncomeForm.totalPrice_of
    [line (Some 2%float) (Some 10%float); line (Some 3%float) None;
     line (Some 1%float) (Some 5%float)]
  = IncomeForm.totalPrice_of
      [line (Some 2%float) (Some 10%float); line (Some 1%float) (Some 5%float)].
Proof.
  exact (proj1 (proj2 (proj2
    (missing_field_contributes_zero
       [line (Some 2%float) (Some 10%float)]
       [line (Some 1%float) (Some 5%float)]
       (line (Some 3%float) None)
       (or_intror eq_refl))))).
Defined.

(** C3. The recomputation is idempotent: what it leaves in [totalPrice]
    is [totalPrice_of] of the lines (but for the sign of a zero, and that
    very number when it is not a zero), it leaves the lines as they are,
    and running it again on its own result changes nothing. *)
Theorem totalPrice_effect_idempotent (st : IncomeForm.State) :
  let st' := IncomeForm.totalPrice_effect st in
  let total :=
    IncomeForm.totalPrice_of (IncomeData.products (IncomeForm.values st)) in
  JS.same_number (IncomeData.totalPrice (IncomeForm.values st')) total
  /\ (is_zero total = false ->
      IncomeData.totalPrice (IncomeForm.values st') = total)
  /\ IncomeData.products (IncomeForm.values st')
     = IncomeData.products (IncomeForm.values st)
  /\ IncomeForm.totalPrice_effect st' = st'
  /\ IncomeData.totalPrice
       (IncomeForm.values (IncomeForm.totalPrice_effect st'))
     = IncomeData.totalPrice (IncomeForm.values st').
Proof.
  intros st' total.
  assert (Hfix : IncomeForm.totalPrice_effect st' = st').
  { subst st'. destruct st as [c su se mo pr al [v sub] ti co].
    destruct v as [i w d p t ty o docs stt].
    unfold IncomeForm.totalPrice_effect, IncomeForm.setValues, IncomeForm.values,
      IncomeForm.set_formik, Formik.setValues, IncomeData.set_totalPrice.
    cbn. rewrite setIn_number_idempotent. reflexivity. }
  split; [apply setIn_number_same|].
  split; [apply setIn_number_exact|].
  split; [reflexivity|]. split; [exact Hfix|].
  rewrite Hfix. reflexivity.
Qed.

End TotalClaims.

(** ** The supplier the income form shows *)

Module ResolverClaims.

Definition no_fields : IncomeForm.SupplierFields :=
  {| IncomeForm.supplierAddress := None; IncomeForm.supplierEmail := None;
     IncomeForm.supplierRNC := None; IncomeForm.supplierPhoneNumber := None;
     IncomeForm.supplierType := None |}.

Definition fields_of (s : SupplierData.t) : IncomeForm.SupplierFields :=
  {| IncomeForm.supplierAddress := Some (SupplierData.address s);
     IncomeForm.supplierEmail := Some (SupplierData.email s);
     IncomeForm.supplierRNC := Some (SupplierData.rnc s);
     IncomeForm.supplierPhoneNumber := Some (SupplierData.phone_number s);
     IncomeForm.supplierType := Some (SupplierData.supplier_type s) |}.

Lemma find_supplier_Some (l : list SupplierData.t) (id : string) (s : SupplierData.t) :
  IncomeForm.find_supplier l id = Some s -> In s l /\ SupplierData.id s = id.
Proof.
  unfold IncomeForm.find_supplier. intros H.
  apply find_some in H. destruct H as [Hin Heq].
  split; [exact Hin|]. apply String.eqb_eq. exact Heq.
Qed.

Lemma find_supplier_None (l : list SupplierData.t) (id : string) :
  IncomeForm.find_supplier l id = None ->
  forall s, In s l -> SupplierData.id s <> id.
Proof.
  unfold IncomeForm.find_supplier. intros H s Hin Heq.
  pose proof (find_none _ _ H s Hin) as Hs. cbv beta in Hs.
  apply String.eqb_neq in Hs. contradiction.
Qed.

Lemma supplier_fields_of_selected (st : IncomeForm.State) :
  IncomeForm.supplier_fields st
  = match IncomeForm.selectedSupplier st with
    | Some s => fields_of s
    | None => no_fields
    end.
Proof.
  unfold IncomeForm.supplier_fields.
  destruct (IncomeForm.selectedSupplier st); reflexivity.
Qed.

(** The resolver. Whatever supplier was selected before, after the effect
    on the selected identifier and the cache the selected supplier is a
    cached supplier with that identifier, and the five inputs get its
    values, or it is [null], no cached supplier has that identifier, and
    every one of the five inputs gets the value [undefined]; an empty cache
    gives [null]; the cache is left as it is; [handleSupplierChange]
    resolves in the same way. *)
Lemma resolver_returns_match_or_null (st : IncomeForm.State) :
  let id := Origin.id (IncomeData.origin (IncomeForm.values st)) in
  let st' := IncomeForm.selectedSupplier_effect st in
  match IncomeForm.selectedSupplier st' with
  | Some s =>
      In s (IncomeForm.suppliers st) /\ SupplierData.id s = id
      /\ IncomeForm.supplier_fields st' = fields_of s
  | None =>
      (forall s, In s (IncomeForm.suppliers st) -> SupplierData.id s <> id)
      /\ IncomeForm.supplier_fields st' = no_fields
  end
  /\ (IncomeForm.suppliers st = [] -> IncomeForm.selectedSupplier st' = None)
  /\ IncomeForm.suppliers st' = IncomeForm.suppliers st
  /\ (forall supplierId,
        IncomeForm.selectedSupplier
          (IncomeForm.handleSupplierChange st supplierId st)
        = IncomeForm.find_supplier (IncomeForm.suppliers st) supplierId).
Proof.
  intros id st'.
  assert (Hsel : IncomeForm.selectedSupplier st'
                 = IncomeForm.find_supplier (IncomeForm.suppliers st) id)
    by reflexivity.
  split; [|split; [|split]].
  - rewrite supplier_fields_of_selected, Hsel.
    destruct (IncomeForm.find_supplier (IncomeForm.suppliers st) id) as [s|] eqn:Hf.
    + destruct (find_supplier_Some _ _ _ Hf) as [Hin Hid]. auto.
    + split; [|reflexivity]. apply find_supplier_None. exact Hf.
  - intros Hempty. rewrite Hsel, Hempty. reflexivity.
  - reflexivity.
  - intros supplierId. reflexivity.
Qed.

Lemma find_supplier_unmatched (l : list SupplierData.t) (id : string) :
  (forall s, In s l -> SupplierData.id s <> id) ->
  IncomeForm.find_supplier l id = None.
Proof.
  intros Hnone.
  destruct (IncomeForm.find_supplier l id) as [s|] eqn:Hf; [|reflexivity].
  destruct (find_supplier_Some _ _ _ Hf) as [Hin Hid].
  exfalso. exact (Hnone s Hin Hid).
Qed.

(** A commit with no supplier selected leaves the five inputs as they
    are. *)
Lemma commit_unselected (st : IncomeForm.State) (screen : IncomeForm.SupplierTexts) :
  IncomeForm.selectedSupplier st = None -> IncomeForm.commit st screen = screen.
Proof.
  intros H. unfold IncomeForm.commit, IncomeForm.supplier_fields. rewrite H.
  destruct screen. reflexivity.
Qed.

(** A commit with a supplier selected shows it, whatever was shown. *)
Lemma commit_selected (st : IncomeForm.State) (screen : IncomeForm.SupplierTexts)
    (s : SupplierData.t) :
  IncomeForm.selectedSupplier st = Some s ->
  IncomeForm.commit st screen = IncomeForm.texts_of s.
Proof.
  intros H. unfold IncomeForm.commit, IncomeForm.supplier_fields. rewrite H.
  reflexivity.
Qed.

Definition acme : SupplierData.t :=
  {| SupplierData.id := "S-1"; SupplierData.name := "Acme";
     SupplierData.address := "Calle 1"; SupplierData.phone_number := "809";
     SupplierData.email := "a@b.do"; SupplierData.supplier_type := "Equipos";
     SupplierData.status := true; SupplierData.rnc := "1-01" |}.

(** The form with Acme in the cache and chosen in the select. *)
Definition acme_selected : IncomeForm.State :=
  IncomeForm.state
    (IncomeForm.run
       [IncomeForm.SuppliersFetched (IncomeForm.init None) (Api.Fulfilled [acme]);
        IncomeForm.SupplierChange "S-1";
        IncomeForm.SelectedSupplierEffect]
       (IncomeForm.start None)).

(** C4. The resolver does what the claim says; the fields do not. With
    the supplier [previous] selected and on screen, the select is changed
    to an identifier that no cached supplier has (the empty option, for
    one): [handleSupplierChange] and then the effect select [null], each of
    the five inputs gets the value [undefined], and, as React DOM does not
    write [undefined] into an input, the five inputs go on showing the
    values of [previous]. *)
Theorem unmatched_supplier_keeps_the_fields
    (st : IncomeForm.State) (screen : IncomeForm.SupplierTexts)
    (previous : SupplierData.t) (supplierId : string) :
  IncomeForm.selectedSupplier st = Some previous ->
  (forall s, In s (IncomeForm.suppliers st) -> SupplierData.id s <> supplierId) ->
  let shown := IncomeForm.commit st screen in
  let changed := IncomeForm.handleSupplierChange st supplierId st in
  let st' := IncomeForm.selectedSupplier_effect changed in
  shown = IncomeForm.texts_of previous
  /\ IncomeForm.selectedSupplier changed = None
  /\ IncomeForm.selectedSupplier st' = None
  /\ IncomeForm.supplier_fields st' = no_fields
  /\ IncomeForm.commit st' (IncomeForm.commit changed shown)
     = IncomeForm.texts_of previous.
Proof.
  intros Hsel Hnone shown changed st'.
  pose proof (find_supplier_unmatched _ _ Hnone) as Hfind.
  assert (Hshown : shown = IncomeForm.texts_of previous)
    by (apply commit_selected, Hsel).
  assert (Hc : IncomeForm.selectedSupplier changed = None) by exact Hfind.
  assert (Hs : IncomeForm.selectedSupplier st' = None) by exact Hfind.
  split; [exact Hshown|]. split; [exact Hc|]. split; [exact Hs|].
  split.
  - rewrite supplier_fields_of_selected, Hs. reflexivity.
  - rewrite (commit_unselected st' _ Hs), (commit_unselected changed _ Hc).
    exact Hshown.
Qed.

Lemma unmatched_supplier_keeps_the_fields_witness :
  let changed := IncomeForm.handleSupplierChange acme_selected "" acme_selected in
  let st' := IncomeForm.selectedSupplier_effect changed in
  IncomeForm.selectedSupplier st' = None
  /\ IncomeForm.textAddress
       (IncomeForm.commit st'
          (IncomeForm.commit changed
             (IncomeForm.commit acme_selected IncomeForm.blank)))
     = "Calle 1".
Proof.
  assert (Hnone : forall s, In s [acme] -> SupplierData.id s <> "").
  { intros s [<-|[]]. discriminate. }
  pose proof (unmatched_supplier_keeps_the_fields acme_selected IncomeForm.blank
                acme "" eq_refl Hnone) as H.
  split.
  - exact (proj1 (proj2 (proj2 H))).
  - exact (f_equal IncomeForm.textAddress (proj2 (proj2 (proj2 (proj2 H))))).
Defined.

End ResolverClaims.

(** ** The rule of the income identifier *)

Module ValidationClaims.

Lemma unique_id_true_iff (get : string -> Api.result JS.value) (value : option string) :
  IncomeForm.unique_id get value = true
  <-> exists v data, value = Some v /\ v <> ""
        /\ get v = Api.Fulfilled data /\ JS.truthy data = false.
Proof.
  unfold IncomeForm.unique_id. split.
  - destruct value as [v|]; [|discriminate].
    destruct (v =? "") eqn:Hv; [discriminate|].
    apply String.eqb_neq in Hv.
    destruct (get v) as [data|e] eqn:Hg; [|discriminate].
    intros H. apply negb_true_iff in H. exists v, data. auto.
  - intros (v & data & -> & Hv & Hg & Ht).
    apply String.eqb_neq in Hv. rewrite Hv, Hg, Ht. reflexivity.
Qed.

Lemma required_of_unique_id (get : string -> Api.result JS.value) (value : option string) :
  IncomeForm.unique_id get value = true -> IncomeForm.required value = true.
Proof.
  unfold IncomeForm.unique_id, IncomeForm.required.
  destruct value as [v|]; [|discriminate].
  destruct (v =? ""); [discriminate|reflexivity].
Qed.

(** C5. The rule fails closed. The [unique_id] test passes exactly when the
    identifier is not empty and the request is fulfilled with a payload
    that says the identifier does not exist; so it fails when the payload
    says it exists, when the request is rejected, and on an empty or
    missing identifier. The field has no error exactly when the test
    passes; a non-empty identifier that fails it gets the duplicate-id
    message; and a form whose identifier has an error does not call
    [onSubmit]. *)
Theorem unique_id_fails_closed
    (get : string -> Api.result JS.value) (value : option string) :
  (IncomeForm.unique_id get value = true
   <-> exists v data, value = Some v /\ v <> ""
         /\ get v = Api.Fulfilled data /\ JS.truthy data = false)
  /\ (forall v, value = Some v ->
        get v = Api.Fulfilled (JS.boolean true) \/ (exists e, get v = Api.Rejected e) ->
        IncomeForm.unique_id get value = false)
  /\ IncomeForm.unique_id get (Some "") = false
  /\ IncomeForm.unique_id get None = false
  /\ (IncomeForm.id_error get value = None
      <-> IncomeForm.unique_id get value = true)
  /\ (IncomeForm.required value = true ->
      IncomeForm.unique_id get value = false ->
      IncomeForm.id_error get value = Some IncomeForm.unique_id_message)
  /\ (forall (others : bool) (r : IncomeForm.Run),
        IncomeForm.unique_id get value = false ->
        IncomeForm.step
          (IncomeForm.SubmitClick (IncomeForm.schema_valid get value others)) r
        = r).
Proof.
  split; [apply unique_id_true_iff|].
  split.
  { intros v -> Hget. unfold IncomeForm.unique_id.
    destruct (v =? ""); [reflexivity|].
    destruct Hget as [H|[e H]]; rewrite H; reflexivity. }
  split; [reflexivity|]. split; [reflexivity|].
  split.
  { unfold IncomeForm.id_error, IncomeForm.id_errors. split.
    - destruct (IncomeForm.required value);
        destruct (IncomeForm.unique_id get value); simpl;
        (discriminate || reflexivity).
    - intros H. rewrite (required_of_unique_id get value H), H. reflexivity. }
  split.
  { intros Hreq Hu. unfold IncomeForm.id_error, IncomeForm.id_errors.
    rewrite Hreq, Hu. reflexivity. }
  intros others r Hu. unfold IncomeForm.step, IncomeForm.schema_valid.
  unfold IncomeForm.id_error, IncomeForm.id_errors. rewrite Hu.
  destruct (IncomeForm.submit_disabled (IncomeForm.state r)); [reflexivity|].
  destruct (IncomeForm.required value); reflexivity.
Qed.

End ValidationClaims.

(** ** Submission *)

Module SubmissionClaims.

(** C7. When the submission is rejected, the form is back to editing
    ([isSubmitting] is false, so the submit button is enabled again) and
    the values of the draft are those from before the submission, in the
    income form and in the supplier form. *)
Theorem rejected_submission_keeps_draft
    (income : IncomeForm.State) (supplier : SupplierForm.State) (error : string) :
  let income' :=
    IncomeForm.onSubmit_settled (Api.Rejected error)
      (IncomeForm.onSubmit_begin income) in
  let supplier' :=
    SupplierForm.onSubmit_settled (Api.Rejected error)
      (SupplierForm.onSubmit_begin supplier) in
  (Formik.isSubmitting (IncomeForm.formik (IncomeForm.onSubmit_begin income)) = true
   /\ Formik.isSubmitting (IncomeForm.formik income') = false
   /\ IncomeForm.values income' = IncomeForm.values income
   /\ IncomeForm.submit_disabled income' = false)
  /\ (Formik.isSubmitting (SupplierForm.formik (SupplierForm.onSubmit_begin supplier)) = true
      /\ Formik.isSubmitting (SupplierForm.formik supplier') = false
      /\ Formik.values (SupplierForm.formik supplier')
         = Formik.values (SupplierForm.formik supplier)
      /\ SupplierForm.submit_disabled supplier' = false).
Proof.
  intros income' supplier'. subst income' supplier'.
  destruct income as [c su se mo pr al [v sub] ti co].
  destruct supplier as [[v' sub'] c' sh ti' co'].
  repeat split.
Qed.

(** C8, as the code has it. A rejected submission of the supplier form
    shows its alert and sets a timeout of 5000 ms whose callback hides it;
    a rejected submission of the income form prints to the console and
    leaves its alert and its timeouts as they were: it shows nothing. *)
Theorem income_form_shows_no_alert_on_rejection
    (income : IncomeForm.State) (supplier : SupplierForm.State) (error : string) :
  let income' := IncomeForm.onSubmit_settled (Api.Rejected error) income in
  let supplier' := SupplierForm.onSubmit_settled (Api.Rejected error) supplier in
  (SupplierForm.showErrorAlert supplier' = true
   /\ SupplierForm.timeouts supplier'
      = (SupplierForm.timeouts supplier ++ [5000])%list
   /\ SupplierForm.showErrorAlert
        (SupplierForm.timeout_fires
           (List.length (SupplierForm.timeouts supplier)) supplier')
      = false)
  /\ (IncomeForm.alertConfig income' = IncomeForm.alertConfig income
      /\ IncomeForm.timeouts income' = IncomeForm.timeouts income
      /\ IncomeForm.console income'
         = (IncomeForm.console income ++ ["Error al enviar el formulario:"])%list
      /\ AlertConfig.visible
           (IncomeForm.alertConfig
              (IncomeForm.onSubmit_settled (Api.Rejected error)
                 (IncomeForm.onSubmit_begin (IncomeForm.init None))))
         = false).
Proof.
  intros income' supplier'. subst income' supplier'.
  split; [|repeat split].
  split; [reflexivity|]. split; [reflexivity|].
  unfold SupplierForm.timeout_fires.
  replace (nth_error _ _) with (Some 5000); [reflexivity|].
  symmetry. cbn [SupplierForm.onSubmit_settled SupplierForm.setTimeout
                 SupplierForm.timeouts].
  rewrite nth_error_app2 by apply le_n.
  rewrite Nat.sub_diag. reflexivity.
Qed.

(** *** One submission at a time *)

Definition income_invariant (r : IncomeForm.Run) : Prop :=
  IncomeForm.inFlight r
  = if IncomeForm.submit_disabled (IncomeForm.state r) then 1 else 0.

Definition supplier_invariant (r : SupplierForm.Run) : Prop :=
  SupplierForm.inFlight r
  = if SupplierForm.submit_disabled (SupplierForm.state r) then 1 else 0.

Lemma income_handle_submitting (e : IncomeForm.Event) (st : IncomeForm.State) :
  IncomeForm.submit_disabled (IncomeForm.handle e st)
  = IncomeForm.submit_disabled st.
Proof.
  destruct e as [valid|res|render response|render response|supplierId
                |render create refetch|render create refetch|selected
                |modalName state| | | | |k];
    cbn [IncomeForm.handle]; try reflexivity.
  - destruct response; reflexivity.
  - destruct response; reflexivity.
  - destruct create; [destruct refetch|]; reflexivity.
  - destruct create; [destruct refetch|]; reflexivity.
  - destruct modalName; reflexivity.
  - destruct (IncomeForm.submit_disabled st) eqn:Hd; exact Hd.
  - unfold IncomeForm.timeout_fires.
    destruct (nth_error (IncomeForm.timeouts st) k); reflexivity.
Qed.

Lemma income_step_invariant (e : IncomeForm.Event) (r : IncomeForm.Run) :
  income_invariant r -> income_invariant (IncomeForm.step e r).
Proof.
  unfold income_invariant. intros Hr.
  destruct e; cbn [IncomeForm.step];
    try (cbn [IncomeForm.state IncomeForm.inFlight];
         rewrite income_handle_submitting; exact Hr).
  - destruct (IncomeForm.submit_disabled (IncomeForm.state r)) eqn:Hd;
      [rewrite Hd; exact Hr|].
    destruct valid; [|rewrite Hd; exact Hr].
    cbn [IncomeForm.state IncomeForm.inFlight]. rewrite Hr. reflexivity.
  - destruct (IncomeForm.inFlight r) as [|n] eqn:Hn; [rewrite Hn; exact Hr|].
    cbn [IncomeForm.state IncomeForm.inFlight].
    destruct (IncomeForm.submit_disabled (IncomeForm.state r));
      [|discriminate Hr].
    injection Hr as ->. destruct r0; reflexivity.
Qed.

Lemma income_run_invariant (events : list IncomeForm.Event) :
  forall r, income_invariant r -> income_invariant (IncomeForm.run events r).
Proof.
  induction events as [|e events IH]; intros r Hr.
  - exact Hr.
  - apply IH, income_step_invariant, Hr.
Qed.

Lemma supplier_step_invariant (e : SupplierForm.Event) (r : SupplierForm.Run) :
  supplier_invariant r -> supplier_invariant (SupplierForm.step e r).
Proof.
  unfold supplier_invariant. intros Hr.
  destruct e as [change|valid|res| | |k]; cbn [SupplierForm.step].
  - exact Hr.
  - destruct (SupplierForm.submit_disabled (SupplierForm.state r)) eqn:Hd;
      [rewrite Hd; exact Hr|].
    destruct valid; [|rewrite Hd; exact Hr].
    cbn [SupplierForm.state SupplierForm.inFlight]. rewrite Hr. reflexivity.
  - destruct (SupplierForm.inFlight r) as [|n] eqn:Hn; [rewrite Hn; exact Hr|].
    cbn [SupplierForm.state SupplierForm.inFlight].
    destruct (SupplierForm.submit_disabled (SupplierForm.state r));
      [|discriminate Hr].
    injection Hr as ->. destruct res; reflexivity.
  - destruct (SupplierForm.submit_disabled (SupplierForm.state r)) eqn:Hd;
      [rewrite Hd; exact Hr|].
    cbn [SupplierForm.state SupplierForm.inFlight].
    change (SupplierForm.submit_disabled
              (SupplierForm.setCancelModalOpen true (SupplierForm.state r)))
      with (SupplierForm.submit_disabled (SupplierForm.state r)).
    rewrite Hd. exact Hr.
  - exact Hr.
  - cbn [SupplierForm.state SupplierForm.inFlight].
    replace (SupplierForm.submit_disabled
               (SupplierForm.timeout_fires k (SupplierForm.state r)))
      with (SupplierForm.submit_disabled (SupplierForm.state r)); [exact Hr|].
    unfold SupplierForm.timeout_fires.
    destruct (nth_error (SupplierForm.timeouts (SupplierForm.state r)) k);
      reflexivity.
Qed.

Lemma supplier_run_invariant (events : list SupplierForm.Event) :
  forall r, supplier_invariant r -> supplier_invariant (SupplierForm.run events r).
Proof.
  induction events as [|e events IH]; intros r Hr.
  - exact Hr.
  - apply IH, supplier_step_invariant, Hr.
Qed.

(** C9. After any events on a form just mounted, at most one call of
    [props.onSubmit] has not settled, there is one exactly while
    [isSubmitting] is true, which is when the submit button is disabled,
    and a click on the button then starts nothing; in the income form and
    in the supplier form. *)
Theorem one_submission_in_flight
    (incomeData : option IncomeData.t) (incomeEvents : list IncomeForm.Event)
    (supplierData : option SupplierData.t) (supplierEvents : list SupplierForm.Event) :
  let i := IncomeForm.run incomeEvents (IncomeForm.start incomeData) in
  let s := SupplierForm.run supplierEvents (SupplierForm.start supplierData) in
  (IncomeForm.inFlight i <= 1
   /\ (IncomeForm.inFlight i = 1
       <-> IncomeForm.submit_disabled (IncomeForm.state i) = true)
   /\ (IncomeForm.inFlight i = 1 ->
       forall valid, IncomeForm.step (IncomeForm.SubmitClick valid) i = i))
  /\ (SupplierForm.inFlight s <= 1
      /\ (SupplierForm.inFlight s = 1
          <-> SupplierForm.submit_disabled (SupplierForm.state s) = true)
      /\ (SupplierForm.inFlight s = 1 ->
          forall valid, SupplierForm.step (SupplierForm.SubmitClick valid) s = s)).
Proof.
  intros i s.
  assert (Hi : income_invariant i)
    by (apply income_run_invariant; reflexivity).
  assert (Hs : supplier_invariant s)
    by (apply supplier_run_invariant; reflexivity).
  unfold income_invariant in Hi. unfold supplier_invariant in Hs.
  split.
  - cbn [IncomeForm.step].
    destruct (IncomeForm.submit_disabled (IncomeForm.state i));
      rewrite Hi; repeat split; intros; (lia || discriminate || reflexivity).
  - cbn [SupplierForm.step].
    destruct (SupplierForm.submit_disabled (SupplierForm.state s));
      rewrite Hs; repeat split; intros; (lia || discriminate || reflexivity).
Qed.

End SubmissionClaims.

(** ** Creating a supplier from the income form *)

Module NestedCreateClaims.

Definition supplier (id name : string) : SupplierData.t :=
  {| SupplierData.id := id; SupplierData.name := name;
     SupplierData.address := "Calle 1"; SupplierData.phone_number := "809";
     SupplierData.email := "a@b.do"; SupplierData.supplier_type := "Equipos";
     SupplierData.status := true; SupplierData.rnc := "1-01" |}.

(** The income form just mounted, with the overlay of the supplier form
    open. *)
Definition overlay_open : IncomeForm.State :=
  IncomeForm.toggleModal IncomeForm.CreateSupplier None (IncomeForm.init None).




End NestedCreateClaims.

(** ** The actions of a row of the catalog *)

Module CatalogClaims.

Definition product (id : string) (status : JS.value) : ProductData.t :=
  {| ProductData.id := id; ProductData.name := "Maíz"; ProductData.image := None;
     ProductData.status := status |}.

Definition catalog : ViewProducts.State :=
  {| ViewProducts.products := [product "P-1" (JS.boolean false)];
     ViewProducts.selectedProduct := None;
     ViewProducts.urlImageProduct := "";
     ViewProducts.alertConfig :=
       {| AlertConfig.visible := false; AlertConfig.color := "";
          AlertConfig.message := "" |};
     ViewProducts.modals :=
       {| ViewProducts.create := false; ViewProducts.details := false;
          ViewProducts.update := false; ViewProducts.delete := false |} |}.

(** C10. For a row whose status is not [true]: the cell holds the details
    button, enabled, and the update and delete buttons, disabled; a button
    of the cell that is enabled is the details button; a click on a button
    of the cell leaves the update and delete modals as they are, and a
    click on the update or the delete button leaves the whole state as it
    is; a click on the details button selects the row and toggles the
    details modal. *)
Theorem inactive_row_actions
    (row : ProductData.t) (download : Api.result string) (st : ViewProducts.State) :
  JS.is_true (ProductData.status row) = false ->
  ViewProducts.action_buttons row
  = [ {| ViewProducts.opens := ViewProducts.Details; ViewProducts.disabled := false |};
      {| ViewProducts.opens := ViewProducts.Update; ViewProducts.disabled := true |};
      {| ViewProducts.opens := ViewProducts.Delete; ViewProducts.disabled := true |} ]
  /\ (forall b, In b (ViewProducts.action_buttons row) ->
        (ViewProducts.disabled b = false -> ViewProducts.opens b = ViewProducts.Details)
        /\ (ViewProducts.opens b <> ViewProducts.Details ->
            ViewProducts.click b row download st = st)
        /\ ViewProducts.update (ViewProducts.modals (ViewProducts.click b row download st))
           = ViewProducts.update (ViewProducts.modals st)
        /\ ViewProducts.delete (ViewProducts.modals (ViewProducts.click b row download st))
           = ViewProducts.delete (ViewProducts.modals st))
  /\ (let st' := ViewProducts.click
                   {| ViewProducts.opens := ViewProducts.Details;
                      ViewProducts.disabled := false |} row download st in
      ViewProducts.selectedProduct st' = Some row
      /\ ViewProducts.details (ViewProducts.modals st')
         = negb (ViewProducts.details (ViewProducts.modals st))).
Proof.
  intros Hstatus.
  assert (Hbuttons :
    ViewProducts.action_buttons row
    = [ {| ViewProducts.opens := ViewProducts.Details; ViewProducts.disabled := false |};
        {| ViewProducts.opens := ViewProducts.Update; ViewProducts.disabled := true |};
        {| ViewProducts.opens := ViewProducts.Delete; ViewProducts.disabled := true |} ]).
  { unfold ViewProducts.action_buttons. rewrite Hstatus. reflexivity. }
  split; [exact Hbuttons|]. split.
  - intros b Hb. rewrite Hbuttons in Hb.
    destruct Hb as [<-|[<-|[<-|[]]]];
      (split; [intros H; (reflexivity || discriminate H)|]);
      (split; [intros H; (reflexivity || (exfalso; apply H; reflexivity))|]).
    + unfold ViewProducts.click, ViewProducts.handleClicModal. cbn.
      destruct (ProductData.image row) as [[|c s]|]; [| destruct download|];
        split; reflexivity.
    + split; reflexivity.
    + split; reflexivity.
  - unfold ViewProducts.click, ViewProducts.handleClicModal. cbn.
    destruct (ProductData.image row) as [[|c s]|]; [| destruct download|];
      split; reflexivity.
Qed.

Lemma inactive_row_actions_witness :
  let row := product "P-1" (JS.boolean false) in
  ViewProducts.action_buttons row
  = [ {| ViewProducts.opens := ViewProducts.Details; ViewProducts.disabled := false |};
      {| ViewProducts.opens := ViewProducts.Update; ViewProducts.disabled := true |};
      {| ViewProducts.opens := ViewProducts.Delete; ViewProducts.disabled := true |} ].
Proof.
  exact (proj1 (inactive_row_actions (product "P-1" (JS.boolean false))
                  (Api.Rejected "404") catalog eq_refl)).
Defined.

End CatalogClaims.

(** ** Scenarios *)

Module Scenarios.
Import TotalFacts NestedCreateClaims.

(** Two lines are selected in the table and the effect runs: the draft
    holds 29.5. *)
Example select_two_lines :
  let r := IncomeForm.run
             [IncomeForm.ProductSelect
                [line (Some 2%float) (Some 10%float);
                 line (Some 1%float) (Some 5%float)];
              IncomeForm.TotalPriceEffect]
             (IncomeForm.start None) in
  IncomeData.totalPrice (IncomeForm.values (IncomeForm.state r)) = 29.5%float.
Proof. vm_compute. reflexivity. Qed.

(** S-1 is selected, then the empty option of the select: nothing is
    selected, the five inputs get the value [undefined], and they go on
    showing S-1. *)
Example select_then_unselect :
  let before := IncomeForm.run
                  [IncomeForm.SuppliersFetched (IncomeForm.init None)
                     (Api.Fulfilled [supplier "S-1" "Uno"; supplier "S-2" "Dos"]);
                   IncomeForm.SupplierChange "S-1";
                   IncomeForm.SelectedSupplierEffect]
                  (IncomeForm.start None) in
  let r := IncomeForm.run
             [IncomeForm.SupplierChange ""; IncomeForm.SelectedSupplierEffect]
             before in
  IncomeForm.selectedSupplier (IncomeForm.state r) = None
  /\ IncomeForm.supplier_fields (IncomeForm.state r) = ResolverClaims.no_fields
  /\ IncomeForm.commit (IncomeForm.state r)
       (IncomeForm.commit (IncomeForm.state before) IncomeForm.blank)
     = IncomeForm.texts_of (supplier "S-1" "Uno").
Proof. vm_compute. repeat split. Qed.

(** Two clicks in a row start one submission; after it is rejected a
    click starts the next one, with the draft as it was. *)
Example click_twice :
  let edit := SupplierForm.Edit (fun _ => supplier "S-1" "Uno") in
  let r1 := SupplierForm.run
              [edit; SupplierForm.SubmitClick true; SupplierForm.SubmitClick true]
              (SupplierForm.start None) in
  let r2 := SupplierForm.run
              [SupplierForm.SubmitSettled (Api.Rejected "503");
               SupplierForm.SubmitClick true] r1 in
  SupplierForm.inFlight r1 = 1 /\ SupplierForm.inFlight r2 = 1
  /\ SupplierForm.showErrorAlert (SupplierForm.state r2) = true
  /\ Formik.values (SupplierForm.formik (SupplierForm.state r2))
     = supplier "S-1" "Uno".
Proof. vm_compute. repeat split. Qed.

End Scenarios.

(** ** More on the derived total *)

Module TotalMore.
Import NumberFacts TotalFacts.

Lemma add_product_skips (sum : JS.number) (p : Product.t) :
  IncomeState.counts p = false -> Prim2SF sum <> neg_zero ->
  IncomeForm.add_product sum p = sum.
Proof.
  intros Hp Hs. unfold IncomeForm.add_product, JS.or.
  unfold IncomeState.counts, IncomeState.amount in Hp. rewrite Hp.
  apply add_zero_r, Hs.
Qed.

Lemma fold_add_product_filter (l : list Product.t) : forall acc,
  Prim2SF acc <> neg_zero ->
  fold_left IncomeForm.add_product l acc
  = fold_left IncomeForm.add_product (filter IncomeState.counts l) acc.
Proof.
  induction l as [|p l IH]; intros acc Hacc; [reflexivity|].
  cbn [fold_left filter].
  destruct (IncomeState.counts p) eqn:Hp.
  - cbn [fold_left]. apply IH, add_product_not_neg_zero.
  - rewrite (add_product_skips acc p Hp Hacc). apply IH, Hacc.
Qed.

(** X1. Only the lines whose amount [quantity * price] is truthy count:
    the total of a collection is the total of its lines with a truthy
    amount, in the same order. A line with quantity 0, or with an amount
    that is [NaN] (a missing field, or 0 times Infinity), can be dropped;
    when no line counts the total is 0. *)
Theorem total_of_counting_lines (items : list Product.t) :
  IncomeForm.subtotal items
  = IncomeForm.subtotal (filter IncomeState.counts items)
  /\ IncomeForm.totalPrice_of items
     = IncomeForm.totalPrice_of (filter IncomeState.counts items)
  /\ (forall q p : JS.number,
        IncomeState.counts (line (Some 0%float) (Some p)) = false
        /\ IncomeState.counts (line (Some q) (Some 0%float)) = false)
  /\ (filter IncomeState.counts items = [] ->
      IncomeForm.totalPrice_of items = 0%float).
Proof.
  assert (Hsub : IncomeForm.subtotal items
                 = IncomeForm.subtotal (filter IncomeState.counts items)).
  { apply fold_add_product_filter. rewrite Prim2SF_zero. discriminate. }
  assert (Htot : IncomeForm.totalPrice_of items
                 = IncomeForm.totalPrice_of (filter IncomeState.counts items)).
  { unfold IncomeForm.totalPrice_of. rewrite Hsub. reflexivity. }
  split; [exact Hsub|]. split; [exact Htot|]. split.
  - intros q p. unfold IncomeState.counts, IncomeState.amount.
    cbn [line Product.quantity Product.price JS.ToNumber].
    rewrite !ToBoolean_spec, !mul_spec, Prim2SF_zero.
    split.
    + destruct (Prim2SF p); reflexivity.
    + destruct (Prim2SF q); reflexivity.
  - intros Hnone. rewrite Htot, Hnone. vm_compute. reflexivity.
Qed.

Lemma total_of_counting_lines_witness :
  IncomeForm.totalPrice_of
    [line (Some 0%float) (Some 5%float); line (Some 3%float) None]
  = 0%float.
Proof.
  exact (proj2 (proj2 (proj2
    (total_of_counting_lines
       [line (Some 0%float) (Some 5%float); line (Some 3%float) None])))
    eq_refl).
Defined.

End TotalMore.

(** ** Alerts of the income form *)

Module IncomeAlerts.

Import FormState.

Lemma Forall_without_nth {A} (P : A -> Prop) (l : list A) (k : nat) :
  Forall P l -> Forall P (firstn k l ++ skipn (S k) l).
Proof.
  intros H. apply Forall_app. split.
  - rewrite <- (firstn_skipn k l) in H. apply Forall_app in H. apply H.
  - rewrite <- (firstn_skipn (S k) l) in H. apply Forall_app in H. apply H.
Qed.

Lemma length_without_nth {A} (l : list A) (k : nat) (x : A) :
  nth_error l k = Some x ->
  List.length (firstn k l ++ skipn (S k) l) + 1 = List.length l.
Proof.
  intros H. assert (Hk : k < List.length l).
  { apply nth_error_Some. rewrite H. discriminate. }
  rewrite length_app, length_firstn, length_skipn. lia.
Qed.

Lemma hidden_not_visible (a : AlertConfig.t) :
  AlertConfig.visible (AlertConfig.hidden a) = false.
Proof. reflexivity. Qed.

Lemma alerts_ok_handleError (render st : IncomeForm.State) (message : string) :
  income_alerts_ok st -> income_alerts_ok (IncomeForm.handleError render message st).
Proof.
  intros [Hh _]. split.
  - unfold IncomeState.timeouts_hide in *. cbn.
    apply Forall_app. split; [exact Hh|]. constructor; [reflexivity|constructor].
  - intros _. cbn. intros H. apply app_eq_nil in H. destruct H as [_ H].
    discriminate H.
Qed.

(** A state that differs from one that is fine neither in its alert nor
    in its timeouts is fine. *)
Lemma alerts_ok_same (st st' : IncomeForm.State) :
  IncomeForm.alertConfig st' = IncomeForm.alertConfig st ->
  IncomeForm.timeouts st' = IncomeForm.timeouts st ->
  income_alerts_ok st -> income_alerts_ok st'.
Proof.
  unfold income_alerts_ok, IncomeState.timeouts_hide, IncomeState.alert_expires.
  intros -> ->. trivial.
Qed.

(** A new alert shown together with a timeout that hides. *)
Lemma alerts_ok_shown (st st' : IncomeForm.State) (a : AlertConfig.t) :
  IncomeForm.timeouts st'
  = (IncomeForm.timeouts st
     ++ [{| IncomeForm.delay := 5000; IncomeForm.alert := AlertConfig.hidden a |}])%list ->
  income_alerts_ok st -> income_alerts_ok st'.
Proof.
  intros Ht [Hh _]. split.
  - unfold IncomeState.timeouts_hide in *. rewrite Ht.
    apply Forall_app. split; [exact Hh|]. constructor; [reflexivity|constructor].
  - intros _. rewrite Ht. intros H. apply app_eq_nil in H. destruct H as [_ H].
    discriminate H.
Qed.

Lemma alerts_ok_timeout_fires (k : nat) (st : IncomeForm.State) :
  income_alerts_ok st -> income_alerts_ok (IncomeForm.timeout_fires k st).
Proof.
  intros [Hh He]. unfold IncomeForm.timeout_fires.
  destruct (nth_error (IncomeForm.timeouts st) k) as [t|] eqn:Hk; [|split; assumption].
  assert (Ht : AlertConfig.visible (IncomeForm.alert t) = false).
  { unfold IncomeState.timeouts_hide in Hh. rewrite Forall_forall in Hh.
    apply Hh. eapply nth_error_In. exact Hk. }
  split.
  - unfold IncomeState.timeouts_hide in *. cbn. apply Forall_without_nth, Hh.
  - unfold IncomeState.alert_expires. cbn. rewrite Ht. discriminate.
Qed.

Lemma alerts_ok_handle (e : IncomeForm.Event) (st : IncomeForm.State) :
  income_alerts_ok st -> income_alerts_ok (IncomeForm.handle e st).
Proof.
  intros H.
  destruct e as [valid|res|render response|render response|supplierId
                |render create refetch|render create refetch|selected
                |modalName state| | | | |k];
    cbn [IncomeForm.handle];
    try (apply (alerts_ok_same st); [reflexivity|reflexivity|exact H]).
  - destruct response as [data|err]; cbn [IncomeForm.fetchSuppliers].
    + apply (alerts_ok_same st); [reflexivity|reflexivity|exact H].
    + apply alerts_ok_handleError, H.
  - destruct response as [data|err]; cbn [IncomeForm.fetchProducts].
    + apply (alerts_ok_same st); [reflexivity|reflexivity|exact H].
    + apply alerts_ok_handleError, H.
  - destruct create as [new|err]; cbn [IncomeForm.handleCreateSupplier].
    + eapply alerts_ok_shown with
        (st := IncomeForm.fetchSuppliers render refetch st);
        [reflexivity|].
      destruct refetch as [data|err]; cbn [IncomeForm.fetchSuppliers].
      * apply (alerts_ok_same st); [reflexivity|reflexivity|exact H].
      * apply alerts_ok_handleError, H.
    + apply alerts_ok_handleError.
      apply (alerts_ok_same st); [reflexivity|reflexivity|exact H].
  - destruct create as [new|err]; cbn [IncomeForm.handleCreateProduct].
    + eapply alerts_ok_shown with
        (st := IncomeForm.fetchProducts render refetch st);
        [reflexivity|].
      destruct refetch as [data|err]; cbn [IncomeForm.fetchProducts].
      * apply (alerts_ok_same st); [reflexivity|reflexivity|exact H].
      * apply alerts_ok_handleError, H.
    + apply alerts_ok_handleError.
      apply (alerts_ok_same st); [destruct st; reflexivity|reflexivity|exact H].
  - destruct modalName;
      (apply (alerts_ok_same st); [reflexivity|reflexivity|exact H]).
  - destruct (IncomeForm.submit_disabled st); [exact H|].
    apply (alerts_ok_same st); [reflexivity|reflexivity|exact H].
  - apply alerts_ok_timeout_fires, H.
Qed.

Lemma alerts_ok_step (e : IncomeForm.Event) (r : IncomeForm.Run) :
  income_alerts_ok (IncomeForm.state r) -> income_alerts_ok (IncomeForm.state (IncomeForm.step e r)).
Proof.
  intros H.
  destruct e; cbn [IncomeForm.step];
    try (cbn [IncomeForm.state]; apply alerts_ok_handle; exact H).
  - destruct (IncomeForm.submit_disabled (IncomeForm.state r)); [exact H|].
    destruct valid; [|exact H].
    cbn [IncomeForm.state].
    apply (alerts_ok_same (IncomeForm.state r)); [reflexivity|reflexivity|exact H].
  - destruct (IncomeForm.inFlight r); [exact H|]. cbn [IncomeForm.state].
    destruct r0;
      (apply (alerts_ok_same (IncomeForm.state r)); [reflexivity|reflexivity|exact H]).
Qed.

Lemma alerts_ok_run (events : list IncomeForm.Event) :
  forall r, income_alerts_ok (IncomeForm.state r) ->
            income_alerts_ok (IncomeForm.state (IncomeForm.run events r)).
Proof.
  induction events as [|e events IH]; intros r Hr; [exact Hr|].
  apply IH, alerts_ok_step, Hr.
Qed.

(** X2. After any events on an income form just mounted: an alert on
    screen has a timeout pending, and whichever pending timeout fires, the
    alert is hidden and that timeout is gone, also when the alert on screen
    is a later one than the one the timeout was set for. *)
Theorem income_alert_is_dismissed
    (initialData : option IncomeData.t) (events : list IncomeForm.Event) (k : nat) :
  let st := IncomeForm.state (IncomeForm.run events (IncomeForm.start initialData)) in
  (AlertConfig.visible (IncomeForm.alertConfig st) = true ->
   IncomeForm.timeouts st <> [])
  /\ (k < List.length (IncomeForm.timeouts st) ->
      AlertConfig.visible
        (IncomeForm.alertConfig (IncomeForm.timeout_fires k st)) = false
      /\ List.length (IncomeForm.timeouts (IncomeForm.timeout_fires k st)) + 1
         = List.length (IncomeForm.timeouts st)).
Proof.
  intros st.
  assert (Hok : income_alerts_ok st).
  { apply alerts_ok_run. split.
    - constructor.
    - intros H. discriminate H. }
  destruct Hok as [Hh He]. split; [exact He|].
  intros Hk. apply nth_error_Some in Hk.
  destruct (nth_error (IncomeForm.timeouts st) k) as [t|] eqn:Ht; [|contradiction].
  assert (Hv : AlertConfig.visible (IncomeForm.alert t) = false).
  { unfold IncomeState.timeouts_hide in Hh. rewrite Forall_forall in Hh.
    apply Hh. eapply nth_error_In. exact Ht. }
  unfold IncomeForm.timeout_fires. rewrite Ht. cbn. split; [exact Hv|].
  apply (length_without_nth _ _ t Ht).
Qed.


Lemma income_alert_is_dismissed_witness :
  let st := IncomeForm.state
              (IncomeForm.run
                 [IncomeForm.SuppliersFetched (IncomeForm.init None) (Api.Rejected "503");
                  IncomeForm.ProductsFetched (IncomeForm.init None) (Api.Rejected "503")]
                 (IncomeForm.start None)) in
  AlertConfig.visible (IncomeForm.alertConfig st) = true
  /\ AlertConfig.visible
       (IncomeForm.alertConfig (IncomeForm.timeout_fires 0 st)) = false.
Proof.
  split; [reflexivity|].
  exact (proj1 (proj2 (income_alert_is_dismissed None
    [IncomeForm.SuppliersFetched (IncomeForm.init None) (Api.Rejected "503");
     IncomeForm.ProductsFetched (IncomeForm.init None) (Api.Rejected "503")] 0)
    (Nat.lt_0_succ 1))).
Defined.

End IncomeAlerts.

(** ** The supplier selected and the total stored follow the draft *)

Module DerivedState.
Import IncomeState.

Lemma effect_of_resolved (st : IncomeForm.State) :
  resolved st -> IncomeForm.selectedSupplier_effect st = st.
Proof.
  unfold resolved, IncomeForm.selectedSupplier_effect. intros <-.
  destruct st; reflexivity.
Qed.

(** X3. The selected supplier follows the draft. After a change of the
    select and after the effect, [selectedSupplier] is the supplier the
    cache holds for [origin.id]; in such a state the effect changes
    nothing; and no event of a run of the form, a submission and its
    outcome among them, keeps it from being so but a fetch of the
    suppliers or the creation of one, after which the effect runs. *)
Theorem selection_follows_the_draft
    (st : IncomeForm.State) (supplierId : string)
    (e : IncomeForm.Event) (r : IncomeForm.Run) :
  resolved (IncomeForm.handleSupplierChange st supplierId st)
  /\ Origin.id (IncomeData.origin
                  (IncomeForm.values (IncomeForm.handleSupplierChange st supplierId st)))
     = supplierId
  /\ resolved (IncomeForm.selectedSupplier_effect st)
  /\ IncomeForm.selectedSupplier_effect
       (IncomeForm.handleSupplierChange st supplierId st)
     = IncomeForm.handleSupplierChange st supplierId st
  /\ IncomeForm.selectedSupplier_effect (IncomeForm.selectedSupplier_effect st)
     = IncomeForm.selectedSupplier_effect st
  /\ (resolved (IncomeForm.state r) ->
      match e with
      | IncomeForm.SuppliersFetched _ _ | IncomeForm.SupplierCreated _ _ _ => True
      | _ => resolved (IncomeForm.state (IncomeForm.step e r))
      end).
Proof.
  assert (H1 : resolved (IncomeForm.handleSupplierChange st supplierId st))
    by reflexivity.
  assert (H2 : resolved (IncomeForm.selectedSupplier_effect st)) by reflexivity.
  split; [exact H1|]. split; [reflexivity|]. split; [exact H2|].
  split; [apply effect_of_resolved, H1|].
  split; [apply effect_of_resolved, H2|].
  intros Hr. unfold resolved in *. destruct r as [s n]. cbn [IncomeForm.state] in Hr.
  destruct e as [valid|res|render response|render response|id
                |render create refetch|render create refetch|selected
                |modalName state| | | | |k];
    cbn [IncomeForm.step IncomeForm.state IncomeForm.handle];
    try exact I; try exact Hr; try reflexivity.
  - destruct (IncomeForm.submit_disabled s); [exact Hr|].
    destruct valid; exact Hr.
  - destruct n; [exact Hr|]. destruct res; exact Hr.
  - destruct response; exact Hr.
  - destruct create; [destruct refetch|]; exact Hr.
  - destruct modalName; exact Hr.
  - destruct (IncomeForm.submit_disabled s); exact Hr.
  - unfold IncomeForm.timeout_fires.
    destruct (nth_error (IncomeForm.timeouts s) k); exact Hr.
Qed.

(** X4. The stored total follows the lines. The effect makes the stored
    total the one of the lines, but for the sign of a zero; a selection in
    the table followed by the effect does, and stores that very number
    when it is not a zero; and once it is so, no event of a run of the
    form, a submission and its outcome among them, makes it otherwise but
    a selection in the table, after which the effect runs. *)
Theorem total_follows_the_lines
    (st : IncomeForm.State) (selected : list Product.t)
    (e : IncomeForm.Event) (r : IncomeForm.Run) :
  total_current (IncomeForm.totalPrice_effect st)
  /\ (let st' := IncomeForm.totalPrice_effect
                   (IncomeForm.handleProductSelect selected st) in
      IncomeData.products (IncomeForm.values st') = selected
      /\ JS.same_number (IncomeData.totalPrice (IncomeForm.values st'))
           (IncomeForm.totalPrice_of selected)
      /\ (is_zero (IncomeForm.totalPrice_of selected) = false ->
          IncomeData.totalPrice (IncomeForm.values st')
          = IncomeForm.totalPrice_of selected))
  /\ (total_current (IncomeForm.state r) ->
      match e with
      | IncomeForm.ProductSelect _ => True
      | _ => total_current (IncomeForm.state (IncomeForm.step e r))
      end).
Proof.
  split; [exact (NumberFacts.setIn_number_same _ _)|].
  split.
  { split; [reflexivity|].
    split; [exact (NumberFacts.setIn_number_same _ _)|].
    exact (NumberFacts.setIn_number_exact _ _). }
  intros Hc. unfold total_current in *. destruct r as [s n].
  cbn [IncomeForm.state] in Hc.
  destruct e as [valid|res|render response|render response|id
                |render create refetch|render create refetch|sel
                |modalName state| | | | |k];
    cbn [IncomeForm.step IncomeForm.state IncomeForm.handle];
    try exact I; try exact Hc.
  - destruct (IncomeForm.submit_disabled s); [exact Hc|].
    destruct valid; exact Hc.
  - destruct n; [exact Hc|]. destruct res; exact Hc.
  - destruct response; exact Hc.
  - destruct response; exact Hc.
  - destruct create; [destruct refetch|]; exact Hc.
  - destruct create; [destruct refetch|]; exact Hc.
  - destruct modalName; exact Hc.
  - destruct (IncomeForm.submit_disabled s); exact Hc.
  - exact (NumberFacts.setIn_number_same _ _).
  - unfold IncomeForm.timeout_fires.
    destruct (nth_error (IncomeForm.timeouts s) k); exact Hc.
Qed.

Lemma selection_follows_the_draft_witness :
  resolved
    (IncomeForm.state
       (IncomeForm.step (IncomeForm.SubmitSettled (Api.Rejected "500"))
          (IncomeForm.step (IncomeForm.SubmitClick true) (IncomeForm.start None)))).
Proof.
  exact (proj2 (proj2 (proj2 (proj2 (proj2
    (selection_follows_the_draft (IncomeForm.init None) "S-1"
       (IncomeForm.SubmitSettled (Api.Rejected "500"))
       (IncomeForm.step (IncomeForm.SubmitClick true) (IncomeForm.start None)))))))
    eq_refl).
Defined.

Lemma total_follows_the_lines_witness :
  total_current
    (IncomeForm.state
       (IncomeForm.step (IncomeForm.SubmitSettled (Api.Rejected "500"))
          (IncomeForm.step (IncomeForm.SubmitClick true) (IncomeForm.start None)))).
Proof.
  exact (proj2 (proj2
    (total_follows_the_lines (IncomeForm.init None) []
       (IncomeForm.SubmitSettled (Api.Rejected "500"))
       (IncomeForm.step (IncomeForm.SubmitClick true) (IncomeForm.start None))))
    (or_introl eq_refl)).
Defined.

End DerivedState.

(** ** More on the nested creation of a supplier *)

Module NestedCreateMore.
Import NestedCreateClaims.

(** X5. The supplier created in the overlay stays selected only when the
    cache holds it. When the cache, re-fetched or not, holds no supplier
    with the new identifier (the re-fetch failed, or its list lacks the
    supplier), the effect on [origin.id] and the cache that runs after a
    successful creation selects [null] and the five inputs get the value
    [undefined], although [origin.id] is the new identifier; the five
    inputs then go on showing the created supplier, which the commit before
    the effect wrote into them. *)
Theorem created_supplier_needs_the_cache
    (render st : IncomeForm.State) (newSupplier : SupplierData.t)
    (refetch : Api.result (list SupplierData.t))
    (screen : IncomeForm.SupplierTexts) :
  let created := IncomeForm.handleCreateSupplier render
                   (Api.Fulfilled newSupplier) refetch st in
  let st' := IncomeForm.selectedSupplier_effect created in
  (forall s, In s (IncomeForm.suppliers created) ->
             SupplierData.id s <> SupplierData.id newSupplier) ->
  IncomeForm.selectedSupplier created = Some newSupplier
  /\ IncomeForm.selectedSupplier st' = None
  /\ IncomeForm.supplier_fields st' = ResolverClaims.no_fields
  /\ IncomeForm.commit st' (IncomeForm.commit created screen)
     = IncomeForm.texts_of newSupplier
  /\ Origin.id (IncomeData.origin (IncomeForm.values st'))
     = SupplierData.id newSupplier.
Proof.
  intros created st' Hnone.
  assert (Hcre : IncomeForm.selectedSupplier created = Some newSupplier)
    by (subst created; destruct refetch; reflexivity).
  assert (Hsel : IncomeForm.selectedSupplier st'
                 = IncomeForm.find_supplier (IncomeForm.suppliers created)
                     (SupplierData.id newSupplier)).
  { subst st' created. destruct refetch; reflexivity. }
  rewrite (ResolverClaims.find_supplier_unmatched _ _ Hnone) in Hsel.
  split; [exact Hcre|].
  split; [exact Hsel|].
  split; [rewrite ResolverClaims.supplier_fields_of_selected, Hsel; reflexivity|].
  split.
  - rewrite (ResolverClaims.commit_unselected st' _ Hsel).
    apply ResolverClaims.commit_selected, Hcre.
  - subst st' created. destruct refetch; reflexivity.
Qed.

Lemma created_supplier_needs_the_cache_witness :
  let created := IncomeForm.handleCreateSupplier overlay_open
                   (Api.Fulfilled (supplier "S-1" "Uno"))
                   (Api.Rejected "timeout") overlay_open in
  let st' := IncomeForm.selectedSupplier_effect created in
  IncomeForm.selectedSupplier created = Some (supplier "S-1" "Uno")
  /\ IncomeForm.selectedSupplier st' = None
  /\ IncomeForm.supplier_fields st' = ResolverClaims.no_fields
  /\ IncomeForm.commit st' (IncomeForm.commit created IncomeForm.blank)
     = IncomeForm.texts_of (supplier "S-1" "Uno")
  /\ Origin.id (IncomeData.origin (IncomeForm.values st')) = "S-1".
Proof.
  exact (created_supplier_needs_the_cache overlay_open overlay_open
           (supplier "S-1" "Uno") (Api.Rejected "timeout") IncomeForm.blank
           (fun s (H : In s []) => False_ind _ H)).
Defined.

(** X6. When the request of a nested creation settles, the overlay is
    flipped, not closed: [handleCreateSupplier] and [handleCreateProduct]
    leave their overlay open exactly when it was closed before, whatever
    the outcome, and leave the other overlay alone; so an overlay closed
    from its header while the request was pending opens again.
    [toggleModal] without a state undoes itself; with a state it sets the
    overlay to that state, whatever it was, and leaves the other one
    alone. *)
Theorem nested_create_flips_the_overlay
    (render st : IncomeForm.State)
    (createSupplier : Api.result SupplierData.t)
    (refetchSuppliers : Api.result (list SupplierData.t))
    (createProduct : Api.result unit)
    (refetchProducts : Api.result (list ProductData.t))
    (modalName : IncomeForm.ModalName) (b : bool) :
  let s := IncomeForm.handleCreateSupplier render createSupplier refetchSuppliers st in
  let p := IncomeForm.handleCreateProduct render createProduct refetchProducts st in
  let set := IncomeForm.toggleModal modalName (Some b) st in
  (IncomeForm.createSupplier (IncomeForm.modals s)
   = negb (IncomeForm.createSupplier (IncomeForm.modals st))
   /\ IncomeForm.createProduct (IncomeForm.modals s)
      = IncomeForm.createProduct (IncomeForm.modals st))
  /\ (IncomeForm.createProduct (IncomeForm.modals p)
      = negb (IncomeForm.createProduct (IncomeForm.modals st))
      /\ IncomeForm.createSupplier (IncomeForm.modals p)
         = IncomeForm.createSupplier (IncomeForm.modals st))
  /\ IncomeForm.toggleModal modalName None (IncomeForm.toggleModal modalName None st) = st
  /\ IncomeForm.toggleModal modalName (Some b)
       (IncomeForm.toggleModal modalName None st)
     = set
  /\ match modalName with
     | IncomeForm.CreateSupplier =>
         IncomeForm.createSupplier (IncomeForm.modals set) = b
         /\ IncomeForm.createProduct (IncomeForm.modals set)
            = IncomeForm.createProduct (IncomeForm.modals st)
     | IncomeForm.CreateProduct =>
         IncomeForm.createProduct (IncomeForm.modals set) = b
         /\ IncomeForm.createSupplier (IncomeForm.modals set)
            = IncomeForm.createSupplier (IncomeForm.modals st)
     end.
Proof.
  intros s p set. subst s p set.
  split; [destruct createSupplier; [destruct refetchSuppliers|]; split; reflexivity|].
  split; [destruct createProduct; [destruct refetchProducts|]; split; reflexivity|].
  destruct st as [c su se [ms mp] pr al fo ti co].
  split; [destruct modalName; cbn; rewrite negb_involutive; reflexivity|].
  split; [destruct modalName; reflexivity|].
  destruct modalName; split; reflexivity.
Qed.

End NestedCreateMore.

(** ** More on the supplier form *)

Module SupplierFormMore.

Import FormState.

Lemma values_step (e : SupplierForm.Event) (r : SupplierForm.Run) :
  Formik.values (SupplierForm.formik (SupplierForm.state (SupplierForm.step e r)))
  = match e with
    | SupplierForm.Edit change =>
        change (Formik.values (SupplierForm.formik (SupplierForm.state r)))
    | _ => Formik.values (SupplierForm.formik (SupplierForm.state r))
    end.
Proof.
  destruct e as [change|valid|res| | |k]; cbn [SupplierForm.step].
  - reflexivity.
  - destruct (SupplierForm.submit_disabled (SupplierForm.state r)); [reflexivity|].
    destruct valid; reflexivity.
  - destruct (SupplierForm.inFlight r); [reflexivity|]. destruct res; reflexivity.
  - destruct (SupplierForm.submit_disabled (SupplierForm.state r)); reflexivity.
  - reflexivity.
  - cbn [SupplierForm.state]. unfold SupplierForm.timeout_fires.
    destruct (nth_error _ k); reflexivity.
Qed.

Lemma values_run (events : list SupplierForm.Event) : forall r,
  Formik.values (SupplierForm.formik (SupplierForm.state (SupplierForm.run events r)))
  = edited events (Formik.values (SupplierForm.formik (SupplierForm.state r))).
Proof.
  induction events as [|e events IH]; intros r; [reflexivity|].
  cbn [SupplierForm.run fold_left edited].
  change (fold_left (fun r e => SupplierForm.step e r) events (SupplierForm.step e r))
    with (SupplierForm.run events (SupplierForm.step e r)).
  rewrite IH, values_step. destruct e; reflexivity.
Qed.

(** X7. The draft of the supplier form is what the edits make of the
    initial values: no submission, fulfilled or rejected, no click and no
    timeout changes or clears it; nor does a submission of the income form,
    fulfilled or rejected, change its draft. *)
Theorem draft_is_only_edited
    (initialData : option SupplierData.t) (events : list SupplierForm.Event)
    (income : IncomeForm.State) (r : Api.result unit) :
  Formik.values
    (SupplierForm.formik
       (SupplierForm.state (SupplierForm.run events (SupplierForm.start initialData))))
  = edited events (SupplierForm.initialValues initialData)
  /\ IncomeForm.values
       (IncomeForm.onSubmit_settled r (IncomeForm.onSubmit_begin income))
     = IncomeForm.values income.
Proof.
  split.
  - apply values_run.
  - destruct r; reflexivity.
Qed.

Lemma alert_expires_step (e : SupplierForm.Event) (r : SupplierForm.Run) :
  supplier_alert_expires (SupplierForm.state r) ->
  supplier_alert_expires (SupplierForm.state (SupplierForm.step e r)).
Proof.
  unfold supplier_alert_expires. intros H.
  destruct e as [change|valid|res| | |k]; cbn [SupplierForm.step].
  - exact H.
  - destruct (SupplierForm.submit_disabled (SupplierForm.state r)); [exact H|].
    destruct valid; exact H.
  - destruct (SupplierForm.inFlight r); [exact H|].
    intros _. destruct res; cbn; intros E; apply app_eq_nil in E;
      destruct E as [_ E]; discriminate E.
  - destruct (SupplierForm.submit_disabled (SupplierForm.state r)); exact H.
  - exact H.
  - cbn [SupplierForm.state]. unfold SupplierForm.timeout_fires.
    destruct (nth_error _ k); [|exact H]. cbn. discriminate.
Qed.

Lemma alert_expires_run (events : list SupplierForm.Event) : forall r,
  supplier_alert_expires (SupplierForm.state r) ->
  supplier_alert_expires (SupplierForm.state (SupplierForm.run events r)).
Proof.
  induction events as [|e events IH]; intros r Hr; [exact Hr|].
  apply IH, alert_expires_step, Hr.
Qed.

(** X8. After any events on a supplier form just mounted, an error alert on
    screen has a timeout pending; every settled submission, fulfilled ones
    too, adds one timeout, and whichever timeout fires hides the alert, so
    the alert of a rejected submission can go before its 5 seconds when an
    earlier submission settled less than 5 seconds before it. *)
Theorem supplier_alert_is_dismissed
    (initialData : option SupplierData.t) (events : list SupplierForm.Event)
    (r : Api.result unit) (k : nat) :
  let st := SupplierForm.state
              (SupplierForm.run events (SupplierForm.start initialData)) in
  (SupplierForm.showErrorAlert st = true -> SupplierForm.timeouts st <> [])
  /\ SupplierForm.timeouts (SupplierForm.onSubmit_settled r st)
     = (SupplierForm.timeouts st ++ [5000])%list
  /\ (k < List.length (SupplierForm.timeouts st) ->
      SupplierForm.showErrorAlert (SupplierForm.timeout_fires k st) = false
      /\ List.length (SupplierForm.timeouts (SupplierForm.timeout_fires k st)) + 1
         = List.length (SupplierForm.timeouts st)).
Proof.
  intros st.
  split; [apply alert_expires_run; intros H; discriminate H|].
  split; [destruct r; reflexivity|].
  intros Hk. apply nth_error_Some in Hk. unfold SupplierForm.timeout_fires.
  destruct (nth_error (SupplierForm.timeouts st) k) as [t|] eqn:Ht; [|contradiction].
  split; [reflexivity|]. cbn.
  apply (IncomeAlerts.length_without_nth _ _ t Ht).
Qed.

Lemma supplier_alert_is_dismissed_witness :
  let st := SupplierForm.state
              (SupplierForm.run
                 [SupplierForm.SubmitClick true;
                  SupplierForm.SubmitSettled (Api.Fulfilled tt);
                  SupplierForm.SubmitClick true;
                  SupplierForm.SubmitSettled (Api.Rejected "503")]
                 (SupplierForm.start None)) in
  SupplierForm.showErrorAlert st = true
  /\ SupplierForm.timeouts st = [5000; 5000]
  /\ SupplierForm.showErrorAlert (SupplierForm.timeout_fires 0 st) = false.
Proof.
  split; [reflexivity|]. split; [reflexivity|].
  exact (proj1 (proj2 (proj2 (supplier_alert_is_dismissed None
    [SupplierForm.SubmitClick true;
     SupplierForm.SubmitSettled (Api.Fulfilled tt);
     SupplierForm.SubmitClick true;
     SupplierForm.SubmitSettled (Api.Rejected "503")]
    (Api.Fulfilled tt) 0)) (Nat.lt_0_succ 1))).
Defined.

End SupplierFormMore.

(** ** More on the product catalog *)

Module CatalogMore.
Import CatalogClaims.

(** X9. The badge and the row actions agree, whatever the value of
    [status]: the update and the delete button are disabled exactly when
    the badge reads Inactivo, which is when [status] is not the boolean
    [true] (the string "true" or the number 1 included), and the details
    button is never disabled. *)
Theorem badge_and_actions_agree (row : ProductData.t) (b : ViewProducts.Button) :
  let badge := CatalogPage.status_badge (ProductData.status row) in
  (CatalogPage.text badge = "Activo" /\ CatalogPage.color badge = "success"
   \/ CatalogPage.text badge = "Inactivo" /\ CatalogPage.color badge = "danger")
  /\ (CatalogPage.text badge = "Activo"
      <-> ProductData.status row = JS.boolean true)
  /\ (In b (ViewProducts.action_buttons row) ->
      (ViewProducts.disabled b = true
       <-> ViewProducts.opens b <> ViewProducts.Details
           /\ CatalogPage.text badge = "Inactivo"))
  /\ CatalogPage.text (CatalogPage.status_badge (JS.text "true")) = "Inactivo"
  /\ CatalogPage.text (CatalogPage.status_badge (JS.numeric 1%float)) = "Inactivo".
Proof.
  intros badge. subst badge.
  unfold CatalogPage.status_badge, ViewProducts.action_buttons.
  cbn [CatalogPage.text CatalogPage.color].
  assert (Htrue : JS.is_true (ProductData.status row) = true
                  <-> ProductData.status row = JS.boolean true).
  { destruct (ProductData.status row) as [| |[|]| |]; cbn; split;
      (reflexivity || discriminate). }
  destruct (JS.is_true (ProductData.status row)) eqn:Hs; cbn [negb].
  - split; [left; split; reflexivity|]. split.
    { split; intros _; [apply Htrue; reflexivity|reflexivity]. }
    split; [|split; reflexivity].
    intros [<-|[<-|[<-|[]]]]; cbn [ViewProducts.disabled ViewProducts.opens];
      (split; [discriminate|intros [_ H]; discriminate H]).
  - split; [right; split; reflexivity|]. split.
    { split; [discriminate|]. intros H. apply Htrue in H. discriminate H. }
    split; [|split; reflexivity].
    intros [<-|[<-|[<-|[]]]]; cbn [ViewProducts.disabled ViewProducts.opens].
    + split; [discriminate|]. intros [H _]. exfalso. apply H. reflexivity.
    + split; [|reflexivity]. intros _. split; [discriminate|reflexivity].
    + split; [|reflexivity]. intros _. split; [discriminate|reflexivity].
Qed.

Lemma badge_and_actions_agree_witness :
  ViewProducts.disabled
    {| ViewProducts.opens := ViewProducts.Update; ViewProducts.disabled := true |}
  = true
  <-> ViewProducts.Update <> ViewProducts.Details
      /\ CatalogPage.text (CatalogPage.status_badge (JS.text "true")) = "Inactivo".
Proof.
  exact (proj1 (proj2 (proj2
    (badge_and_actions_agree (product "P-1" (JS.text "true"))
       {| ViewProducts.opens := ViewProducts.Update;
          ViewProducts.disabled := true |})))
    (or_intror (or_introl eq_refl))).
Defined.

Lemma handleClicModal_in_two (modal : ViewProducts.ModalName)
    (data : ProductData.t) (download : Api.result string)
    (st : ViewProducts.State) :
  ViewProducts.handleClicModal modal data download st
  = CatalogPage.handleClicModal_settled modal data download
      (CatalogPage.handleClicModal_begin modal data st).
Proof.
  unfold ViewProducts.handleClicModal, CatalogPage.handleClicModal_settled,
    CatalogPage.handleClicModal_begin, CatalogPage.wants_image.
  destruct modal; try reflexivity;
    destruct (ProductData.image data) as [[|c s]|]; reflexivity.
Qed.

(** X10. For a row whose status is [true], the three buttons are enabled,
    and a click on one selects the row and flips the modal of the button,
    and only that one. The image is asked for by the details and the update
    button when the row has one, and [urlImageProduct] becomes the URL of
    the download when it is fulfilled; the delete button never changes
    [urlImageProduct]. *)
Theorem active_row_actions
    (row : ProductData.t) (download : Api.result string)
    (st : ViewProducts.State) (b : ViewProducts.Button) :
  ProductData.status row = JS.boolean true ->
  In b (ViewProducts.action_buttons row) ->
  let st' := ViewProducts.click b row download st in
  ViewProducts.disabled b = false
  /\ ViewProducts.selectedProduct st' = Some row
  /\ ViewProducts.modals st'
     = ViewProducts.modals (ViewProducts.toggleModal (ViewProducts.opens b) None st)
  /\ ViewProducts.is_open (ViewProducts.opens b) (ViewProducts.modals st')
     = negb (ViewProducts.is_open (ViewProducts.opens b) (ViewProducts.modals st))
  /\ ViewProducts.urlImageProduct st'
     = match download with
       | Api.Fulfilled url =>
           if CatalogPage.wants_image (ViewProducts.opens b) row
           then url else ViewProducts.urlImageProduct st
       | Api.Rejected _ => ViewProducts.urlImageProduct st
       end
  /\ CatalogPage.wants_image ViewProducts.Delete row = false.
Proof.
  intros Hs Hb st'. subst st'.
  unfold ViewProducts.action_buttons in Hb. rewrite Hs in Hb. cbn in Hb.
  assert (Hd : ViewProducts.disabled b = false)
    by (destruct Hb as [<-|[<-|[<-|[]]]]; reflexivity).
  unfold ViewProducts.click. rewrite Hd, handleClicModal_in_two.
  unfold CatalogPage.handleClicModal_settled, CatalogPage.handleClicModal_begin.
  split; [reflexivity|].
  destruct (CatalogPage.wants_image (ViewProducts.opens b) row);
    destruct download as [url|err]; cbn [ViewProducts.fetchImageById];
    (split; [reflexivity|]);
    (split; [reflexivity|]);
    (split; [destruct (ViewProducts.opens b); reflexivity|]);
    split; reflexivity.
Qed.

Lemma active_row_actions_witness :
  let row := product "P-2" (JS.boolean true) in
  let st' := ViewProducts.click
               {| ViewProducts.opens := ViewProducts.Delete;
                  ViewProducts.disabled := false |}
               row (Api.Rejected "404") catalog in
  ViewProducts.selectedProduct st' = Some row
  /\ ViewProducts.delete (ViewProducts.modals st') = true.
Proof.
  pose proof (active_row_actions (product "P-2" (JS.boolean true))
                (Api.Rejected "404") catalog
                {| ViewProducts.opens := ViewProducts.Delete;
                   ViewProducts.disabled := false |}
                eq_refl (or_intror (or_intror (or_introl eq_refl)))) as H.
  exact (conj (proj1 (proj2 H)) (proj1 (proj2 (proj2 (proj2 H))))).
Defined.

End CatalogMore.

(** ** The catalog page *)

Module CatalogPageFacts.
Import CatalogClaims.

(** X11. The details of a product with no image are handed the URL of
    the image shown before, already revoked. A click on a row other than
    the selected one that asks for no image, or whose download is rejected,
    leaves [urlImageProduct] as it was, and the effect on
    [selectedProduct], which runs between the click and the download since
    the selection changed, has revoked that URL when it is not empty. *)
Theorem image_url_is_stale
    (p : CatalogPage.State) (modal : ViewProducts.ModalName)
    (row : ProductData.t) (download : Api.result string) :
  ViewProducts.selectedProduct (CatalogPage.view p) <> Some row ->
  CatalogPage.wants_image modal row = false
  \/ (exists error, download = Api.Rejected error) ->
  let clicked := CatalogPage.lift (CatalogPage.handleClicModal_begin modal row) p in
  let p' := CatalogPage.lift
              (CatalogPage.handleClicModal_settled modal row download)
              (CatalogPage.selectedProduct_effect clicked) in
  ViewProducts.selectedProduct (CatalogPage.view p') = Some row
  /\ ViewProducts.urlImageProduct (CatalogPage.view p')
     = ViewProducts.urlImageProduct (CatalogPage.view p)
  /\ (ViewProducts.urlImageProduct (CatalogPage.view p) <> "" ->
      In (ViewProducts.urlImageProduct (CatalogPage.view p))
         (CatalogPage.revoked p')).
Proof.
  intros _ Hno clicked p'. subst p' clicked.
  unfold CatalogPage.selectedProduct_effect, CatalogPage.handleClicModal_settled,
    CatalogPage.handleClicModal_begin.
  destruct p as [[pr se url al mo] ti co re fe].
  assert (Hin : forall c u, In (String c u) (re ++ [String c u])%list)
    by (intros c u; apply in_or_app; right; left; reflexivity).
  destruct Hno as [H|[error ->]];
    [rewrite H|destruct (CatalogPage.wants_image modal row)];
    destruct url as [|c u]; destruct modal; cbn;
    (split; [reflexivity|]); (split; [reflexivity|]);
    intros Hne; (apply Hin || (contradiction Hne; reflexivity)).
Qed.

Lemma image_url_is_stale_witness :
  let viewed :=
    CatalogPage.lift (ViewProducts.setUrlImageProduct "blob:1") CatalogPage.init in
  let row := product "P-1" (JS.boolean false) in
  let clicked :=
    CatalogPage.lift (CatalogPage.handleClicModal_begin ViewProducts.Details row)
      viewed in
  let p' := CatalogPage.lift
              (CatalogPage.handleClicModal_settled ViewProducts.Details row
                 (Api.Fulfilled "blob:2"))
              (CatalogPage.selectedProduct_effect clicked) in
  ViewProducts.selectedProduct (CatalogPage.view p') = Some row
  /\ ViewProducts.urlImageProduct (CatalogPage.view p') = "blob:1"
  /\ In "blob:1" (CatalogPage.revoked p').
Proof.
  pose proof (image_url_is_stale
                (CatalogPage.lift (ViewProducts.setUrlImageProduct "blob:1")
                   CatalogPage.init)
                ViewProducts.Details (product "P-1" (JS.boolean false))
                (Api.Fulfilled "blob:2")
                (fun E => eq_ind None (fun o => match o with
                                                | None => True
                                                | Some _ => False
                                                end) I _ E)
                (or_introl eq_refl)) as H.
  refine (conj (proj1 H) (conj (proj1 (proj2 H)) (proj2 (proj2 H) _))).
  discriminate.
Defined.

(** X12. When the request of an update or of a delete settles, rejected or
    fulfilled, the selection is cleared and the modal is flipped, so a
    rejected update closes the form it came from; the confirm button of
    the delete modal then has no product to ask for. A creation flips its
    modal and keeps the selection. None of the three changes the list of
    products: a fulfilled one sends the request that will, a rejected one
    sends none. The alert is on screen after each. *)
Theorem catalog_handlers_settle
    (render p : CatalogPage.State) (outcome : Api.result unit) :
  let u := CatalogPage.handleUpdateProduct render outcome p in
  let d := CatalogPage.handleDeleteProduct render outcome p in
  let c := CatalogPage.handleCreateProduct render outcome p in
  let sent := match outcome with Api.Fulfilled _ => 1 | Api.Rejected _ => 0 end in
  let shown := match outcome with
               | Api.Fulfilled _ => "success"
               | Api.Rejected _ => "danger"
               end in
  (ViewProducts.selectedProduct (CatalogPage.view u) = None
   /\ ViewProducts.modals (CatalogPage.view u)
      = ViewProducts.modals
          (ViewProducts.toggleModal ViewProducts.Update None (CatalogPage.view p))
   /\ ViewProducts.update (ViewProducts.modals (CatalogPage.view u))
      = negb (ViewProducts.update (ViewProducts.modals (CatalogPage.view p))))
  /\ (ViewProducts.selectedProduct (CatalogPage.view d) = None
      /\ CatalogPage.confirm_delete d = None
      /\ ViewProducts.delete (ViewProducts.modals (CatalogPage.view d))
         = negb (ViewProducts.delete (ViewProducts.modals (CatalogPage.view p))))
  /\ (ViewProducts.selectedProduct (CatalogPage.view c)
      = ViewProducts.selectedProduct (CatalogPage.view p)
      /\ ViewProducts.create (ViewProducts.modals (CatalogPage.view c))
         = negb (ViewProducts.create (ViewProducts.modals (CatalogPage.view p))))
  /\ (forall q, q = u \/ q = d \/ q = c ->
        ViewProducts.products (CatalogPage.view q)
        = ViewProducts.products (CatalogPage.view p)
        /\ CatalogPage.fetching q = CatalogPage.fetching p + sent
        /\ AlertConfig.visible (ViewProducts.alertConfig (CatalogPage.view q)) = true
        /\ AlertConfig.color (ViewProducts.alertConfig (CatalogPage.view q)) = shown
        /\ List.length (CatalogPage.timeouts q)
           = S (List.length (CatalogPage.timeouts p))).
Proof.
  intros u d c sent shown. subst u d c sent shown.
  split; [destruct outcome; repeat split|].
  split; [destruct outcome; repeat split|].
  split; [destruct outcome; repeat split|].
  intros q [ -> | [ -> | -> ] ]; destruct outcome; cbn;
    rewrite ?length_app, ?Nat.add_0_r, ?Nat.add_1_r; cbn;
    repeat split; lia.
Qed.

Lemma catalog_alerts_ok_shown (p p' : CatalogPage.State) (a : AlertConfig.t) :
  CatalogPage.timeouts p' = (CatalogPage.timeouts p ++ [AlertConfig.hidden a])%list ->
  CatalogPage.alerts_ok p -> CatalogPage.alerts_ok p'.
Proof.
  intros Ht [Hh _]. split.
  - rewrite Ht. apply Forall_app. split; [exact Hh|].
    constructor; [reflexivity|constructor].
  - intros _. rewrite Ht. intros H. apply app_eq_nil in H.
    destruct H as [_ H]. discriminate H.
Qed.

Lemma catalog_alerts_ok_same (p p' : CatalogPage.State) :
  ViewProducts.alertConfig (CatalogPage.view p')
  = ViewProducts.alertConfig (CatalogPage.view p) ->
  CatalogPage.timeouts p' = CatalogPage.timeouts p ->
  CatalogPage.alerts_ok p -> CatalogPage.alerts_ok p'.
Proof. unfold CatalogPage.alerts_ok. intros -> ->. trivial. Qed.

Lemma click_alertConfig (b : ViewProducts.Button) (row : ProductData.t)
    (download : Api.result string) (st : ViewProducts.State) :
  ViewProducts.alertConfig (ViewProducts.click b row download st)
  = ViewProducts.alertConfig st.
Proof.
  unfold ViewProducts.click. destruct (ViewProducts.disabled b); [reflexivity|].
  rewrite CatalogMore.handleClicModal_in_two.
  unfold CatalogPage.handleClicModal_settled.
  destruct (CatalogPage.wants_image _ _); [destruct download|]; reflexivity.
Qed.

Lemma catalog_alerts_ok_step (e : CatalogPage.Event) (p : CatalogPage.State) :
  CatalogPage.alerts_ok p -> CatalogPage.alerts_ok (CatalogPage.step e p).
Proof.
  intros H.
  destruct e as [|render response|render outcome|render outcome|render outcome
                |b row download|modalName state| |k]; cbn [CatalogPage.step].
  - apply (catalog_alerts_ok_same p); [reflexivity|reflexivity|exact H].
  - destruct response as [data|err].
    + apply (catalog_alerts_ok_same p); [reflexivity|reflexivity|exact H].
    + eapply (catalog_alerts_ok_shown p); [reflexivity|exact H].
  - destruct outcome; (eapply (catalog_alerts_ok_shown p); [reflexivity|exact H]).
  - destruct outcome; (eapply (catalog_alerts_ok_shown p); [reflexivity|exact H]).
  - destruct outcome; (eapply (catalog_alerts_ok_shown p); [reflexivity|exact H]).
  - apply (catalog_alerts_ok_same p); [apply click_alertConfig|reflexivity|exact H].
  - apply (catalog_alerts_ok_same p); [reflexivity|reflexivity|exact H].
  - unfold CatalogPage.selectedProduct_effect.
    destruct (ViewProducts.urlImageProduct (CatalogPage.view p));
      (apply (catalog_alerts_ok_same p); [reflexivity|reflexivity|exact H]).
  - destruct H as [Hh He]. unfold CatalogPage.timeout_fires.
    destruct (nth_error (CatalogPage.timeouts p) k) as [a|] eqn:Hk; [|split; assumption].
    assert (Ha : AlertConfig.visible a = false).
    { rewrite Forall_forall in Hh. apply Hh. eapply nth_error_In. exact Hk. }
    split.
    + cbn. apply IncomeAlerts.Forall_without_nth, Hh.
    + cbn. rewrite Ha. discriminate.
Qed.

Lemma catalog_alerts_ok_run (events : list CatalogPage.Event) : forall p,
  CatalogPage.alerts_ok p -> CatalogPage.alerts_ok (CatalogPage.run events p).
Proof.
  induction events as [|e events IH]; intros p Hp; [exact Hp|].
  apply IH, catalog_alerts_ok_step, Hp.
Qed.

(** X13. After any events on the catalog page: an alert on screen,
    success or danger, has a timeout pending, and whichever pending timeout
    fires, the alert is hidden and that timeout is gone. *)
Theorem catalog_alert_is_dismissed (events : list CatalogPage.Event) (k : nat) :
  let p := CatalogPage.run events CatalogPage.init in
  (AlertConfig.visible (ViewProducts.alertConfig (CatalogPage.view p)) = true ->
   CatalogPage.timeouts p <> [])
  /\ (k < List.length (CatalogPage.timeouts p) ->
      AlertConfig.visible
        (ViewProducts.alertConfig
           (CatalogPage.view (CatalogPage.timeout_fires k p))) = false
      /\ List.length (CatalogPage.timeouts (CatalogPage.timeout_fires k p)) + 1
         = List.length (CatalogPage.timeouts p)).
Proof.
  intros p.
  assert (Hok : CatalogPage.alerts_ok p).
  { apply catalog_alerts_ok_run. split; [constructor|]. intros H. discriminate H. }
  destruct Hok as [Hh He]. split; [exact He|].
  intros Hk. apply nth_error_Some in Hk.
  destruct (nth_error (CatalogPage.timeouts p) k) as [a|] eqn:Ha; [|contradiction].
  assert (Hv : AlertConfig.visible a = false).
  { rewrite Forall_forall in Hh. apply Hh. eapply nth_error_In. exact Ha. }
  unfold CatalogPage.timeout_fires. rewrite Ha. cbn. split; [exact Hv|].
  apply (IncomeAlerts.length_without_nth _ _ a Ha).
Qed.

Lemma catalog_alert_is_dismissed_witness :
  let p := CatalogPage.run
             [CatalogPage.Created CatalogPage.init (Api.Fulfilled tt);
              CatalogPage.ProductsFetched CatalogPage.init (Api.Rejected "503")]
             CatalogPage.init in
  AlertConfig.color (ViewProducts.alertConfig (CatalogPage.view p)) = "danger"
  /\ AlertConfig.visible
       (ViewProducts.alertConfig
          (CatalogPage.view (CatalogPage.timeout_fires 0 p))) = false.
Proof.
  split; [reflexivity|].
  exact (proj1 (proj2 (catalog_alert_is_dismissed
    [CatalogPage.Created CatalogPage.init (Api.Fulfilled tt);
     CatalogPage.ProductsFetched CatalogPage.init (Api.Rejected "503")] 0)
    (Nat.lt_0_succ 1))).
Defined.

End CatalogPageFacts.

(** ** The page of one income *)

Module IncomeDetailsFacts.

Lemma attributes_step (e : IncomeDetails.Event) (w : IncomeDetails.World) (v : string) :
  IncomeDetails.attributes w = IncomeDetails.attributes_with v ->
  IncomeDetails.attributes (IncomeDetails.step e w)
  = IncomeDetails.attributes_with (IncomeDetails.latest_label [e] v).
Proof.
  intros Hw.
  destruct e as [|render response|render response| |render response|k];
    cbn [IncomeDetails.step IncomeDetails.latest_label fold_left].
  - exact Hw.
  - destruct response; exact Hw.
  - destruct response as [[incomeFound|]|err]; try exact Hw.
    unfold IncomeDetails.handleFetchIncomeDisplay. rewrite Hw. reflexivity.
  - unfold IncomeDetails.incomeDetails_effect,
      IncomeDetails.handleFetchIncomeProducts_begin.
    destruct (IncomeDetails.incomeDetails (IncomeDetails.page w)); exact Hw.
  - destruct (IncomeDetails.asked w); [exact Hw|].
    destruct response; exact Hw.
  - unfold IncomeDetails.timeout_fires.
    destruct (nth_error (IncomeDetails.timeouts w) k); exact Hw.
Qed.

Lemma attributes_run (events : list IncomeDetails.Event) :
  forall (w : IncomeDetails.World) (v : string),
  IncomeDetails.attributes w = IncomeDetails.attributes_with v ->
  IncomeDetails.attributes (IncomeDetails.run events w)
  = IncomeDetails.attributes_with (IncomeDetails.latest_label events v).
Proof.
  induction events as [|e events IH]; intros w v Hw; [exact Hw|].
  cbn [IncomeDetails.run fold_left].
  apply (IH (IncomeDetails.step e w) (IncomeDetails.latest_label [e] v)).
  apply attributes_step, Hw.
Qed.

(** X14. The array [incomeAttributes] belongs to the module, not to the
    page: after any events, mounts of new instances of the page among
    them, it is the array of the module with, as the label of [origin.id],
    the one asked for by the latest display that was fulfilled with an
    [origin], Proveedor or Almacén de origen, and the empty string before
    any. A display fulfilled with an [origin] is stored and sets the label.
    One fulfilled without, like one rejected, stores nothing, leaves the
    label as it is and raises the danger alert; so a newly mounted page
    whose own display fails shows the label of the income displayed
    before. *)
Theorem attributes_outlive_the_page
    (events : list IncomeDetails.Event) (render : IncomeDetails.State)
    (incomeFound : IncomeData.t) (error : string) :
  let w := IncomeDetails.run events IncomeDetails.loaded in
  let ok := IncomeDetails.step
              (IncomeDetails.DisplayFetched render
                 (Api.Fulfilled (IncomeDetails.WithOrigin incomeFound))) w in
  let failed (response : Api.result IncomeDetails.Display) :=
    IncomeDetails.step (IncomeDetails.DisplayFetched render response)
      (IncomeDetails.mount w) in
  IncomeDetails.attributes w
  = IncomeDetails.attributes_with (IncomeDetails.latest_label events "")
  /\ map IncomeDetails.key (IncomeDetails.attributes w)
     = map IncomeDetails.key IncomeDetails.incomeAttributes
  /\ (IncomeDetails.attributes ok
      = IncomeDetails.attributes_with (IncomeDetails.origin_label incomeFound)
      /\ IncomeDetails.incomeDisplay (IncomeDetails.page ok) = Some incomeFound)
  /\ (forall response,
        response = Api.Fulfilled IncomeDetails.NoOrigin
        \/ response = Api.Rejected error ->
        IncomeDetails.attributes (failed response) = IncomeDetails.attributes w
        /\ IncomeDetails.incomeDisplay (IncomeDetails.page (failed response)) = None
        /\ AlertConfig.visible
             (IncomeDetails.alertConfig (IncomeDetails.page (failed response)))
           = true
        /\ AlertConfig.color
             (IncomeDetails.alertConfig (IncomeDetails.page (failed response)))
           = "danger").
Proof.
  intros w ok failed.
  assert (Hw : IncomeDetails.attributes w
               = IncomeDetails.attributes_with (IncomeDetails.latest_label events ""))
    by (apply attributes_run; reflexivity).
  split; [exact Hw|]. split; [rewrite Hw; reflexivity|]. split.
  - subst ok. cbn [IncomeDetails.step].
    unfold IncomeDetails.handleFetchIncomeDisplay. rewrite Hw. split; reflexivity.
  - intros response [-> | ->]; repeat split.
Qed.

Lemma products_need_income_step (e : IncomeDetails.Event) (w : IncomeDetails.World) :
  IncomeDetails.products_need_income w ->
  IncomeDetails.products_need_income (IncomeDetails.step e w).
Proof.
  unfold IncomeDetails.products_need_income. intros H.
  destruct e as [|render response|render response| |render response|k];
    cbn [IncomeDetails.step].
  - cbn. intros [Ha|Hp]; [contradiction Ha|contradiction Hp]; reflexivity.
  - destruct response as [d|err]; [cbn; discriminate|exact H].
  - unfold IncomeDetails.handleFetchIncomeDisplay.
    destruct response as [[d|]|err]; try exact H.
    destruct (IncomeDetails.set_label 3 _ _); exact H.
  - unfold IncomeDetails.incomeDetails_effect,
      IncomeDetails.handleFetchIncomeProducts_begin.
    destruct (IncomeDetails.incomeDetails (IncomeDetails.page w)) eqn:Hd.
    + cbn. rewrite Hd. discriminate.
    + rewrite Hd. exact H.
  - destruct (IncomeDetails.asked w) as [|n] eqn:Ha; [rewrite Ha; exact H|].
    assert (Hd : IncomeDetails.incomeDetails (IncomeDetails.page w) <> None).
    { apply H. left. discriminate. }
    destruct response; cbn; intros _; exact Hd.
  - unfold IncomeDetails.timeout_fires.
    destruct (nth_error (IncomeDetails.timeouts w) k); exact H.
Qed.

Lemma products_need_income_run (events : list IncomeDetails.Event) :
  forall w, IncomeDetails.products_need_income w ->
            IncomeDetails.products_need_income (IncomeDetails.run events w).
Proof.
  induction events as [|e events IH]; intros w Hw; [exact Hw|].
  apply IH, products_need_income_step, Hw.
Qed.

(** X15. The table of products has rows only once the income is loaded:
    after any events, a row of the table comes with the income, and its
    details button navigates to the product in the warehouse of that
    income, never in a warehouse named undefined. *)
Theorem product_link_has_the_warehouse
    (events : list IncomeDetails.Event) (row : ProductData.t) :
  let w := IncomeDetails.run events IncomeDetails.loaded in
  In row (IncomeDetails.productsIncome (IncomeDetails.page w)) ->
  exists d,
    IncomeDetails.incomeDetails (IncomeDetails.page w) = Some d
    /\ IncomeDetails.handleClicProductDetails row (IncomeDetails.page w)
       = "/warehouse/inventory/product_details?warehouse="
         ++ IncomeData.warehouse d ++ "&product=" ++ ProductData.id row.
Proof.
  intros w Hrow.
  assert (Hinv : IncomeDetails.products_need_income w).
  { apply products_need_income_run. intros [H|H]; contradiction H; reflexivity. }
  assert (Hd : IncomeDetails.incomeDetails (IncomeDetails.page w) <> None).
  { apply Hinv. right. intros Hnil. rewrite Hnil in Hrow. exact Hrow. }
  unfold IncomeDetails.handleClicProductDetails.
  destruct (IncomeDetails.incomeDetails (IncomeDetails.page w)) as [d|];
    [|contradiction Hd; reflexivity].
  exists d. split; reflexivity.
Qed.

Lemma product_link_has_the_warehouse_witness :
  let d := IncomeForm.initialValues None in
  let row := CatalogClaims.product "P-1" (JS.boolean true) in
  let w := IncomeDetails.run
             [IncomeDetails.Mount;
              IncomeDetails.IncomeFetched IncomeDetails.init (Api.Fulfilled d);
              IncomeDetails.IncomeDetailsEffect;
              IncomeDetails.ProductsFetched IncomeDetails.init (Api.Fulfilled [row])]
             IncomeDetails.loaded in
  exists d',
    IncomeDetails.incomeDetails (IncomeDetails.page w) = Some d'
    /\ IncomeDetails.handleClicProductDetails row (IncomeDetails.page w)
       = "/warehouse/inventory/product_details?warehouse="
         ++ IncomeData.warehouse d' ++ "&product=" ++ "P-1".
Proof.
  exact (product_link_has_the_warehouse
           [IncomeDetails.Mount;
            IncomeDetails.IncomeFetched IncomeDetails.init
              (Api.Fulfilled (IncomeForm.initialValues None));
            IncomeDetails.IncomeDetailsEffect;
            IncomeDetails.ProductsFetched IncomeDetails.init
              (Api.Fulfilled [CatalogClaims.product "P-1" (JS.boolean true)])]
           (CatalogClaims.product "P-1" (JS.boolean true))
           (or_introl eq_refl)).
Defined.

End IncomeDetailsFacts.

(** ** The page of one outcome *)

Module OutcomeDetailsFacts.

Definition sound (events : list OutcomeDetails.Event) (p : OutcomeDetails.Page)
    : Prop :=
  (forall o, OutcomeDetails.outcome (OutcomeDetails.state p) = Some o ->
             OutcomeDetails.fetched events o)
  /\ (forall r, In r (OutcomeDetails.requests p) ->
        exists o, OutcomeDetails.fetched events o
                  /\ (r = OutcomeDetails.FindWarehouse (OutcomeData.warehouseDestiny o)
                      \/ r = OutcomeDetails.FindProducts (Some (OutcomeData.products o))))
  /\ ((OutcomeDetails.warehouseDestiny (OutcomeDetails.state p) <> None
       \/ OutcomeDetails.productsOutcome (OutcomeDetails.state p) <> []) ->
      OutcomeDetails.requests p <> [])
  /\ (OutcomeDetails.requests p <> [] ->
      OutcomeDetails.outcome (OutcomeDetails.state p) <> None).

Lemma fetched_more (events : list OutcomeDetails.Event) (e : OutcomeDetails.Event)
    (o : OutcomeData.t) :
  OutcomeDetails.fetched events o -> OutcomeDetails.fetched (events ++ [e]) o.
Proof.
  intros [render H]. exists render. apply in_or_app. left. exact H.
Qed.

Lemma sound_more (events : list OutcomeDetails.Event) (e : OutcomeDetails.Event)
    (p p' : OutcomeDetails.Page) :
  OutcomeDetails.outcome (OutcomeDetails.state p')
  = OutcomeDetails.outcome (OutcomeDetails.state p) ->
  OutcomeDetails.requests p' = OutcomeDetails.requests p ->
  (OutcomeDetails.requests p = [] ->
   OutcomeDetails.warehouseDestiny (OutcomeDetails.state p')
   = OutcomeDetails.warehouseDestiny (OutcomeDetails.state p)
   /\ OutcomeDetails.productsOutcome (OutcomeDetails.state p')
      = OutcomeDetails.productsOutcome (OutcomeDetails.state p)) ->
  sound events p -> sound (events ++ [e]) p'.
Proof.
  intros Ho Hr Hw (H1 & H2 & H3 & H4). split; [|split; [|split]].
  - intros o Hs. rewrite Ho in Hs. apply fetched_more, H1, Hs.
  - intros r Hin. rewrite Hr in Hin. destruct (H2 r Hin) as (o & Hf & Hreq).
    exists o. split; [apply fetched_more, Hf|exact Hreq].
  - rewrite Hr. intros Hshown Hnil. destruct (Hw Hnil) as [Ha Hb].
    rewrite Ha, Hb in Hshown. exact (H3 Hshown Hnil).
  - rewrite Hr, Ho. exact H4.
Qed.

Lemma sound_step (events : list OutcomeDetails.Event) (e : OutcomeDetails.Event)
    (p : OutcomeDetails.Page) :
  sound events p -> sound (events ++ [e]) (OutcomeDetails.step e p).
Proof.
  intros H.
  destruct e as [render response| |render response|render response|k];
    cbn [OutcomeDetails.step].
  - destruct response as [o|err].
    + destruct H as (H1 & H2 & H3 & H4). split; [|split; [|split]].
      * intros o' Ho'. cbn in Ho'. injection Ho' as <-.
        exists render. apply in_or_app. right. left. reflexivity.
      * intros r Hin. destruct (H2 r Hin) as (o' & Hf & Hreq).
        exists o'. split; [apply fetched_more, Hf|exact Hreq].
      * exact H3.
      * intros _. cbn. discriminate.
    + apply (sound_more events _ p); [reflexivity|reflexivity| |exact H].
      intros _. split; reflexivity.
  - unfold OutcomeDetails.outcome_effect.
    destruct (OutcomeDetails.outcome (OutcomeDetails.state p)) as [o|] eqn:Ho.
    + destruct H as (H1 & H2 & H3 & H4). split; [|split; [|split]].
      * intros o' Ho'. apply fetched_more, H1. exact Ho'.
      * intros r Hin. cbn in Hin. rewrite Ho in Hin. cbn in Hin.
        apply in_app_or in Hin. destruct Hin as [Hin|[<-|[]]].
        { apply in_app_or in Hin. destruct Hin as [Hin|[<-|[]]].
          - destruct (H2 r Hin) as (o' & Hf & Hreq).
            exists o'. split; [apply fetched_more, Hf|exact Hreq].
          - exists o. split; [apply fetched_more, H1, Ho|left; reflexivity]. }
        exists o. split; [apply fetched_more, H1, Ho|right; reflexivity].
      * intros _. cbn. intros Hnil. apply app_eq_nil in Hnil.
        destruct Hnil as [_ Hnil]. discriminate Hnil.
      * intros _. cbn. rewrite Ho. discriminate.
    + apply (sound_more events _ p); [reflexivity|reflexivity| |exact H].
      intros _. split; reflexivity.
  - destruct (OutcomeDetails.requests p) as [|r rs] eqn:Hr.
    + apply (sound_more events _ p); [reflexivity|reflexivity| |exact H].
      intros _. split; reflexivity.
    + destruct response;
        (apply (sound_more events _ p);
         [reflexivity|reflexivity|rewrite Hr; discriminate|exact H]).
  - destruct (OutcomeDetails.requests p) as [|r rs] eqn:Hr.
    + apply (sound_more events _ p); [reflexivity|reflexivity| |exact H].
      intros _. split; reflexivity.
    + destruct response;
        (apply (sound_more events _ p);
         [reflexivity|reflexivity|rewrite Hr; discriminate|exact H]).
  - unfold OutcomeDetails.timeout_fires.
    destruct (nth_error (OutcomeDetails.timeouts p) k).
    + apply (sound_more events _ p); [reflexivity|reflexivity| |exact H].
      intros _. split; reflexivity.
    + apply (sound_more events _ p); [reflexivity|reflexivity| |exact H].
      intros _. split; reflexivity.
Qed.

Lemma sound_run (events : list OutcomeDetails.Event) :
  sound events (OutcomeDetails.run events OutcomeDetails.mounted).
Proof.
  induction events as [|e events IH] using rev_ind.
  - split; [|split; [|split]].
    + intros o H. discriminate H.
    + intros r [].
    + intros [H|H]; contradiction H; reflexivity.
    + intros H. contradiction H. reflexivity.
  - unfold OutcomeDetails.run. rewrite fold_left_app. cbn [fold_left].
    apply sound_step, IH.
Qed.

(** X16. The page asks for the destination warehouse and for the products
    only once the outcome is loaded: after any events, every request for a
    warehouse sent carries the [warehouseDestiny] of an outcome that a
    fulfilled fetch returned, and every request for products carries the
    products of such an outcome, never an [undefined] body. *)
Theorem requests_follow_the_outcome
    (events : list OutcomeDetails.Event) (r : OutcomeDetails.Request) :
  let p := OutcomeDetails.run events OutcomeDetails.mounted in
  In r (OutcomeDetails.requests p) ->
  (exists o,
     OutcomeDetails.fetched events o
     /\ (r = OutcomeDetails.FindWarehouse (OutcomeData.warehouseDestiny o)
         \/ r = OutcomeDetails.FindProducts (Some (OutcomeData.products o))))
  /\ r <> OutcomeDetails.FindProducts None.
Proof.
  intros p Hin. destruct (sound_run events) as (_ & H2 & _ & _).
  destruct (H2 r Hin) as (o & Hf & Hr). split.
  - exists o. split; assumption.
  - destruct Hr as [->| ->]; discriminate.
Qed.

Lemma requests_follow_the_outcome_witness :
  let o := {| OutcomeData.id := "O-1"; OutcomeData.date := "01/02/2025";
              OutcomeData.warehouseOrigin := "AG001";
              OutcomeData.outcomeType := "transfer";
              OutcomeData.warehouseDestiny := "AG002";
              OutcomeData.products := [] |} in
  let events := [OutcomeDetails.OutcomeEffect;
                 OutcomeDetails.OutcomeFetched OutcomeDetails.init (Api.Fulfilled o);
                 OutcomeDetails.OutcomeEffect] in
  OutcomeDetails.requests (OutcomeDetails.run events OutcomeDetails.mounted)
  = [OutcomeDetails.FindWarehouse "AG002"; OutcomeDetails.FindProducts (Some [])]
  /\ OutcomeDetails.FindWarehouse "AG002" <> OutcomeDetails.FindProducts None.
Proof.
  split; [reflexivity|].
  exact (proj2 (requests_follow_the_outcome
    [OutcomeDetails.OutcomeEffect;
     OutcomeDetails.OutcomeFetched OutcomeDetails.init
       (Api.Fulfilled {| OutcomeData.id := "O-1"; OutcomeData.date := "01/02/2025";
                         OutcomeData.warehouseOrigin := "AG001";
                         OutcomeData.outcomeType := "transfer";
                         OutcomeData.warehouseDestiny := "AG002";
                         OutcomeData.products := [] |});
     OutcomeDetails.OutcomeEffect]
    (OutcomeDetails.FindWarehouse "AG002") (or_introl eq_refl))).
Defined.

(** X17. The table of the outcome has rows only once the outcome is
    loaded: after any events, a row of the table, like a warehouse in the
    card, comes with an outcome in the state that a fulfilled fetch
    returned, and after a request was sent. *)
Theorem outcome_rows_need_the_outcome
    (events : list OutcomeDetails.Event) :
  let p := OutcomeDetails.run events OutcomeDetails.mounted in
  OutcomeDetails.productsOutcome (OutcomeDetails.state p) <> []
  \/ OutcomeDetails.warehouseDestiny (OutcomeDetails.state p) <> None ->
  OutcomeDetails.requests p <> []
  /\ exists o,
       OutcomeDetails.outcome (OutcomeDetails.state p) = Some o
       /\ OutcomeDetails.fetched events o.
Proof.
  intros p Hshown. destruct (sound_run events) as (H1 & _ & H3 & H4).
  fold p in H1, H3, H4.
  assert (Hr : OutcomeDetails.requests p <> []).
  { apply H3. destruct Hshown as [H|H]; [right|left]; exact H. }
  split; [exact Hr|].
  pose proof (H4 Hr) as Ho.
  destruct (OutcomeDetails.outcome (OutcomeDetails.state p)) as [o|] eqn:Heq;
    [|contradiction Ho; reflexivity].
  exists o. split; [reflexivity|]. apply H1. reflexivity.
Qed.

Lemma outcome_rows_need_the_outcome_witness :
  let o := {| OutcomeData.id := "O-1"; OutcomeData.date := "01/02/2025";
              OutcomeData.warehouseOrigin := "AG001";
              OutcomeData.outcomeType := "transfer";
              OutcomeData.warehouseDestiny := "AG002";
              OutcomeData.products := [] |} in
  let row := CatalogClaims.product "P-1" (JS.boolean true) in
  let p := OutcomeDetails.run
             [OutcomeDetails.OutcomeFetched OutcomeDetails.init (Api.Fulfilled o);
              OutcomeDetails.OutcomeEffect;
              OutcomeDetails.ProductsFetched OutcomeDetails.init (Api.Fulfilled [row])]
             OutcomeDetails.mounted in
  OutcomeDetails.productsOutcome (OutcomeDetails.state p) = [row]
  /\ exists o',
       OutcomeDetails.outcome (OutcomeDetails.state p) = Some o'
       /\ OutcomeDetails.fetched
            [OutcomeDetails.OutcomeFetched OutcomeDetails.init (Api.Fulfilled o);
             OutcomeDetails.OutcomeEffect;
             OutcomeDetails.ProductsFetched OutcomeDetails.init (Api.Fulfilled [row])]
            o'.
Proof.
  split; [reflexivity|].
  refine (proj2 (outcome_rows_need_the_outcome
    [OutcomeDetails.OutcomeFetched OutcomeDetails.init
       (Api.Fulfilled {| OutcomeData.id := "O-1"; OutcomeData.date := "01/02/2025";
                         OutcomeData.warehouseOrigin := "AG001";
                         OutcomeData.outcomeType := "transfer";
                         OutcomeData.warehouseDestiny := "AG002";
                         OutcomeData.products := [] |});
     OutcomeDetails.OutcomeEffect;
     OutcomeDetails.ProductsFetched OutcomeDetails.init
       (Api.Fulfilled [CatalogClaims.product "P-1" (JS.boolean true)])]
    (or_introl _))).
  discriminate.
Defined.

End OutcomeDetailsFacts.
